(** * github_script.py: a shallow embedding and its checked properties

    The module under study is a thin Python shim for GitHub Actions:
    a logging/output facade ([Core]), a snapshot of the execution
    context ([Context]), a wrapper around the PyGithub client
    ([GitHubWrapper]) and a script runner ([run_script]).

    Python values are modelled by [pyval], exceptions by [pyexn], and a
    call that may raise by the [outcome] monad.  The process environment
    ([os.environ]) is a finite map from names to texts and is passed
    explicitly; so is the file system, a finite map from regular files to
    their texts.  Builtins and library functions that the module calls
    but does not define ([str.upper], [int], [json.load], [format],
    [hasattr], iteration, [exec]), and the side of the operating system
    that the module does not change (which file a path names, which
    files are directories or devices, what is refused, which texts can
    be encoded) are the fields of a [PyRuntime]; every property is
    stated for an arbitrary runtime. *)

From Stdlib Require Import ZArith String Ascii List PrimFloat Lia Sorted.
From stdpp Require Import base option strings gmap list pretty.
Import ListNotations.

#[local] Set Warnings "-register-all".
#[local] Open Scope Z_scope.
#[local] Open Scope string_scope.

(** ** Values, exceptions, outcomes *)

(** Python values.  Strings are sequences of bytes: the UTF-8 form of the
    text, where a surrogate code point, which Python strings may hold,
    has its three bytes like any other code point.  Dictionaries
    with string keys are association lists in insertion order, and
    [PyObj] is an instance of a class the module does not look into (the
    client, a module, a PyGithub object), with its instance attributes. *)
Inductive pyval : Type :=
| PyNone
| PyBool (b : bool)
| PyInt (z : Z)
| PyFloat (f : float)
| PyStr (s : string)
| PyList (items : list pyval)
| PyDict (entries : list (string * pyval))
| PyObj (cls : string) (fields : list (string * pyval)).

Inductive pyexn : Type :=
| ValueError (msg : string)
| AttributeError (msg : string)
| KeyError (key : string)
| TypeError (msg : string)
| OSError (msg : string)
| UnicodeEncodeError (msg : string)
| ForeignError (cls msg : string).

(** The result of running a piece of Python: a value, a raised exception,
    or no result at all (a script or an iterator that never finishes). *)
Inductive outcome (A : Type) : Type :=
| Returns (a : A)
| Raises (e : pyexn)
| Diverges.
Arguments Returns {A} a.
Arguments Raises {A} e.
Arguments Diverges {A}.

#[global] Instance outcome_ret : MRet outcome := @Returns.
#[global] Instance outcome_bind : MBind outcome := fun A B f m =>
  match m with
  | Returns a => f a
  | Raises e => Raises e
  | Diverges => Diverges
  end.

(** Truth value of an object, as [if], [and], [or] and [not] test it; an
    instance of a class is taken to be true, as it is unless its class
    says otherwise. *)
Definition truthy (v : pyval) : bool :=
  match v with
  | PyNone => false
  | PyBool b => b
  | PyInt z => negb (z =? 0)%Z
  | PyFloat f => negb (PrimFloat.eqb f PrimFloat.zero)
  | PyStr s => negb (String.eqb s "")
  | PyList l => match l with [] => false | _ :: _ => true end
  | PyDict l => match l with [] => false | _ :: _ => true end
  | PyObj _ _ => true
  end.

Definition str_truthy (s : string) : bool := negb (String.eqb s "").

(** [a or b]: [b] is evaluated only when [a] is falsy. *)
Definition py_or (a : pyval) (b : outcome pyval) : outcome pyval :=
  if truthy a then Returns a else b.

(** ** Dictionaries *)

Fixpoint dict_lookup (entries : list (string * pyval)) (key : string) : option pyval :=
  match entries with
  | [] => None
  | (k, v) :: rest => if String.eqb k key then Some v else dict_lookup rest key
  end.

(** [d.get(key, dflt)]; only dictionaries have the method. *)
Definition py_get (d : pyval) (key : string) (dflt : pyval) : outcome pyval :=
  match d with
  | PyDict entries => Returns (default dflt (dict_lookup entries key))
  | _ => Raises (AttributeError "get")
  end.

(** [d[key]] *)
Definition py_getitem (d : pyval) (key : string) : outcome pyval :=
  match d with
  | PyDict entries =>
      match dict_lookup entries key with
      | Some v => Returns v
      | None => Raises (KeyError key)
      end
  | _ => Raises (TypeError "subscript")
  end.

(** ** Strings *)

Definition slash : ascii := "/"%char.
Definition newline : ascii := "010"%char.

(** [s.replace(old, new)] for one-character [old] and [new]. *)
Fixpoint str_replace (old new : ascii) (s : string) : string :=
  match s with
  | EmptyString => EmptyString
  | String c rest =>
      String (if Ascii.eqb c old then new else c) (str_replace old new rest)
  end.

(** [s.split(sep, maxsplit)] for a one-character [sep]: the list is never
    empty, and at most [maxsplit] cuts are made, leftmost first. *)
Fixpoint str_split (sep : ascii) (maxsplit : nat) (s : string) : list string :=
  match s with
  | EmptyString => [EmptyString]
  | String c rest =>
      if Ascii.eqb c sep then
        match maxsplit with
        | O => [s]
        | S m => EmptyString :: str_split sep m rest
        end
      else
        match str_split sep maxsplit rest with
        | [] => [String c EmptyString]
        | piece :: pieces => String c piece :: pieces
        end
  end.

Fixpoint str_contains (c : ascii) (s : string) : bool :=
  match s with
  | EmptyString => false
  | String c' rest => Ascii.eqb c' c || str_contains c rest
  end.

(** ** Process environment *)

(** [os.getenv(key)] is [env !! key]; [os.getenv(key, dflt)]: *)
Definition getenv_or (env : gmap string string) (key dflt : string) : string :=
  default dflt (env !! key).

(** What [sys.exit(code)] raises. *)
Definition SystemExit (code : Z) : pyexn := ForeignError "SystemExit" (pretty code).

(** [d[key] = v] on the entries of a dictionary: a key that is there keeps
    its place, a new one goes last. *)
Fixpoint dict_set (entries : list (string * pyval)) (key : string) (v : pyval)
  : list (string * pyval) :=
  match entries with
  | [] => [(key, v)]
  | (k, old) :: rest =>
      if String.eqb k key then (k, v) :: rest else (k, old) :: dict_set rest key v
  end.

(** ** The Python runtime and the operating system

    What the module calls and does not define, and what it finds and
    does not change. *)

(** The ways in which the module touches a file: [os.path.exists],
    [open(path, "r")] and [open(path, "a")]. *)
Inductive access : Type := Stat | Read | Append.

(** A file that is neither a regular file nor a directory (a device, a
    pipe): what reading all of it gives, and what opening it for
    appending and writing a text to it do.  The file system keeps no
    text for it. *)
Record special : Type := {
  special_read : outcome string;
  special_open : outcome unit;
  special_write : string -> outcome unit
}.

Record PyRuntime : Type := {
  (** [str.upper] *)
  str_upper : string -> string;
  (** [int(s)] for a string [s]: the integer, or the message of the
      [ValueError] *)
  py_int : string -> string + Z;
  (** [json.load] applied to an open file that has this text *)
  json_load : string -> outcome pyval;
  (** [format(v, "")], what an f-string field [{v}] expands to;
      formatting is taken to leave the files and the output alone *)
  py_format : pyval -> outcome string;
  (** [hasattr(v, name)] *)
  py_hasattr : pyval -> string -> outcome bool;
  (** the elements that [for item in v] goes through *)
  py_iter : pyval -> outcome (list pyval);
  (** [exec(source, globals)]: the globals when the source has run *)
  py_exec : string -> gmap string pyval -> outcome (gmap string pyval);
  (** what [os.getenv(key)] raises instead of looking [key] up, if
      anything: UnicodeEncodeError for a key that has no bytes in the
      encoding of the environment (a lone surrogate) *)
  environ_refuses : string -> option pyexn;
  (** what writing a text to standard output raises, if anything *)
  stdout_refuses : string -> option pyexn;
  (** what writing a text to a file opened in text mode raises, if
      anything: the text cannot be encoded *)
  write_refuses : string -> option pyexn;
  (** the file that a path names: paths with the same [os_locate] are
      spellings of one file *)
  os_locate : string -> string;
  (** the files that are directories *)
  os_is_dir : string -> bool;
  (** the files that are devices or pipes *)
  os_special : string -> option special;
  (** what an access by a path raises, if it cannot be made: the
      operating system does not allow it (permissions, a directory on the
      way that is missing, a path that is too long or cannot be encoded),
      or, for [Read], the content cannot be decoded *)
  os_refuses : access -> string -> option pyexn
}.

Definition parse_int (rt : PyRuntime) (s : string) : outcome Z :=
  match py_int rt s with
  | inl msg => Raises (ValueError msg)
  | inr z => Returns z
  end.

(** ** Files and standard output

    The file system is the map from regular files to their texts, the
    text of a file being what reading it in text mode gives (so the
    encoding and the line ends on the disk are the platform's).  A file
    is named by [os_locate] of a path. *)

(** The text of the file that [path] names, empty when there is none. *)
Definition file_text (rt : PyRuntime) (fs : gmap string string) (path : string)
  : string :=
  default "" (fs !! os_locate rt path).

(** [os.path.exists]: something is there, a directory, a device or a
    regular file, and [os.stat] is allowed to see it; the empty path
    names nothing. *)
Definition path_exists (rt : PyRuntime) (fs : gmap string string) (path : string)
  : bool :=
  str_truthy path
  && match os_refuses rt Stat path with
     | Some _ => false
     | None => true
     end
  && (os_is_dir rt (os_locate rt path)
      || bool_decide (is_Some (os_special rt (os_locate rt path)))
      || bool_decide (is_Some (fs !! os_locate rt path))).

(** [open(path, "r")] followed by reading the whole file. *)
Definition file_read (rt : PyRuntime) (fs : gmap string string) (path : string)
  : outcome string :=
  if str_truthy path then
    match os_refuses rt Read path with
    | Some e => Raises e
    | None =>
        if os_is_dir rt (os_locate rt path) then Raises (OSError "IsADirectoryError")
        else match os_special rt (os_locate rt path) with
             | Some device => special_read device
             | None =>
                 match fs !! os_locate rt path with
                 | Some text => Returns text
                 | None => Raises (OSError "FileNotFoundError")
                 end
             end
    end
  else Raises (OSError "FileNotFoundError").

(** [open(path, "a")]: a regular file is created when it does not
    exist. *)
Definition file_open_append (rt : PyRuntime) (fs : gmap string string)
    (path : string) : outcome (gmap string string) :=
  if str_truthy path then
    match os_refuses rt Append path with
    | Some e => Raises e
    | None =>
        if os_is_dir rt (os_locate rt path) then Raises (OSError "IsADirectoryError")
        else match os_special rt (os_locate rt path) with
             | Some device => _ ← special_open device; Returns fs
             | None =>
                 Returns (match fs !! os_locate rt path with
                          | Some _ => fs
                          | None => <[os_locate rt path := ""]> fs
                          end)
             end
    end
  else Raises (OSError "FileNotFoundError").

(** [f.write(text)] on a file opened for appending, and closing it; of
    a text that cannot be encoded nothing is written.  The disk is taken
    to have room for what is written. *)
Definition file_write (rt : PyRuntime) (fs : gmap string string)
    (path text : string) : outcome unit * gmap string string :=
  match write_refuses rt text with
  | Some e => (Raises e, fs)
  | None =>
      match os_special rt (os_locate rt path) with
      | Some device => (special_write device text, fs)
      | None =>
          (Returns tt, <[os_locate rt path := file_text rt fs path +:+ text]> fs)
      end
  end.

(** [print(text)]: the text and a newline go to the end of what standard
    output has received; of a text that is refused nothing is printed. *)
Definition py_print (rt : PyRuntime) (stdout text : string)
  : outcome unit * string :=
  match stdout_refuses rt text with
  | Some e => (Raises e, stdout)
  | None => (Returns tt, stdout +:+ text +:+ String newline "")
  end.

(** ** class Core *)

Module Core.

(** The two writers return the outcome of the call together with the
    file system it leaves behind. *)
Definition set_output (rt : PyRuntime) (env fs : gmap string string)
    (name : string) (value : pyval) : outcome unit * gmap string string :=
  match env !! "GITHUB_OUTPUT" with
  | Some output_file =>
      if str_truthy output_file then
        match file_open_append rt fs output_file with
        | Returns fs1 =>
            match py_format rt value with
            | Returns shown =>
                file_write rt fs1 output_file
                  (name +:+ "=" +:+ shown +:+ String newline "")
            | Raises e => (Raises e, fs1)
            | Diverges => (Diverges, fs1)
            end
        | Raises e => (Raises e, fs)
        | Diverges => (Diverges, fs)
        end
      else (Returns tt, fs)
  | None => (Returns tt, fs)
  end.

Definition export_variable (rt : PyRuntime) (env fs : gmap string string)
    (name : string) (value : pyval) : outcome unit * gmap string string :=
  match env !! "GITHUB_ENV" with
  | Some env_file =>
      if str_truthy env_file then
        match file_open_append rt fs env_file with
        | Returns fs1 =>
            match py_format rt value with
            | Returns shown =>
                file_write rt fs1 env_file
                  (name +:+ "=" +:+ shown +:+ String newline "")
            | Raises e => (Raises e, fs1)
            | Diverges => (Diverges, fs1)
            end
        | Raises e => (Raises e, fs)
        | Diverges => (Diverges, fs)
        end
      else (Returns tt, fs)
  | None => (Returns tt, fs)
  end.

(** The name of the environment variable that carries input [name]. *)
Definition input_key (rt : PyRuntime) (name : string) : string :=
  "INPUT_" +:+ str_replace "-"%char "_"%char (str_upper rt name).

Definition get_input (rt : PyRuntime) (env : gmap string string)
    (name : string) (required : bool) : outcome string :=
  match environ_refuses rt (input_key rt name) with
  | Some e => Raises e
  | None =>
      let val := getenv_or env (input_key rt name) "" in
      if required && negb (str_truthy val) then
        Raises (ValueError ("Input required and not supplied: " +:+ name))
      else Returns val
  end.

(** The printing functions take what standard output has received and
    return the outcome of the call with what it has received then. *)
Definition debug (rt : PyRuntime) (stdout message : string)
  : outcome unit * string :=
  py_print rt stdout ("::debug::" +:+ message).

Definition info (rt : PyRuntime) (stdout message : string)
  : outcome unit * string :=
  py_print rt stdout message.

Definition warning (rt : PyRuntime) (stdout message : string)
  : outcome unit * string :=
  py_print rt stdout ("::warning::" +:+ message).

Definition error (rt : PyRuntime) (stdout message : string)
  : outcome unit * string :=
  py_print rt stdout ("::error::" +:+ message).

Definition set_failed (rt : PyRuntime) (stdout message : string)
  : outcome unit * string :=
  match py_print rt stdout ("::error::" +:+ message) with
  | (Returns _, stdout1) => (Raises (SystemExit 1), stdout1)
  | (Raises e, stdout1) => (Raises e, stdout1)
  | (Diverges, stdout1) => (Diverges, stdout1)
  end.

Definition set_secret (rt : PyRuntime) (stdout secret : string)
  : outcome unit * string :=
  py_print rt stdout ("::add-mask::" +:+ secret).

End Core.

(** ** class Context *)

Module Context.

Record t : Type := {
  payload : pyval;
  event_name : string;
  sha : string;
  ref : string;
  workflow : string;
  action : string;
  actor : string;
  job : string;
  run_number : Z;
  run_id : Z;
  api_url : string;
  server_url : string;
  graphql_url : string
}.

Definition _load_payload (rt : PyRuntime) (env fs : gmap string string)
  : outcome pyval :=
  match env !! "GITHUB_EVENT_PATH" with
  | Some event_path =>
      if str_truthy event_path && path_exists rt fs event_path then
        text ← file_read rt fs event_path;
        json_load rt text
      else Returns (PyDict [])
  | None => Returns (PyDict [])
  end.

Definition __init__ (rt : PyRuntime) (env fs : gmap string string) : outcome t :=
  the_payload ← _load_payload rt env fs;
  the_run_number ← parse_int rt (getenv_or env "GITHUB_RUN_NUMBER" "0");
  the_run_id ← parse_int rt (getenv_or env "GITHUB_RUN_ID" "0");
  Returns {|
    payload := the_payload;
    event_name := getenv_or env "GITHUB_EVENT_NAME" "";
    sha := getenv_or env "GITHUB_SHA" "";
    ref := getenv_or env "GITHUB_REF" "";
    workflow := getenv_or env "GITHUB_WORKFLOW" "";
    action := getenv_or env "GITHUB_ACTION" "";
    actor := getenv_or env "GITHUB_ACTOR" "";
    job := getenv_or env "GITHUB_JOB" "";
    run_number := the_run_number;
    run_id := the_run_id;
    api_url := getenv_or env "GITHUB_API_URL" "https://api.github.com";
    server_url := getenv_or env "GITHUB_SERVER_URL" "https://github.com";
    graphql_url := getenv_or env "GITHUB_GRAPHQL_URL" "https://api.github.com/graphql"
  |}.

(** The property [repo]: the environment is read at each access, and the
    two-name unpacking fails unless the split gives exactly two pieces. *)
Definition repo (env : gmap string string) : outcome pyval :=
  let repository := getenv_or env "GITHUB_REPOSITORY" "/" in
  match str_split slash 1 repository with
  | [owner; name] => Returns (PyDict [("owner", PyStr owner); ("repo", PyStr name)])
  | _ => Raises (ValueError "not enough values to unpack (expected 2, got 1)")
  end.

(** The [or] chain that picks the number in [issue]. *)
Definition issue_number (the_payload : pyval) : outcome pyval :=
  from_issue ← (i ← py_get the_payload "issue" (PyDict []); py_get i "number" PyNone);
  py_or from_issue (
    from_pull ← (p ← py_get the_payload "pull_request" (PyDict []); py_get p "number" PyNone);
    py_or from_pull (py_get the_payload "number" (PyInt 0))).

(** The property [issue]; the dictionary display evaluates its three
    values in order, and [self.repo] is computed twice. *)
Definition issue (self : t) (env : gmap string string) : outcome pyval :=
  owner ← (r ← repo env; py_getitem r "owner");
  name ← (r ← repo env; py_getitem r "repo");
  number ← issue_number (payload self);
  Returns (PyDict [("owner", owner); ("repo", name); ("number", number)]).

End Context.

(** ** class GitHubWrapper *)

Module GitHubWrapper.

(** A [GithubRetry] object: the total, the backoff factor and the status
    list that it works with. *)
Record GithubRetry : Type := {
  total : Z;
  backoff_factor : Z;
  status_forcelist : list Z
}.

(** The arguments given to [Github], which keeps them.  (The client is
    made from a base URL that PyGithub accepts, an http or https URL.) *)
Record Github : Type := {
  auth : option string;
  base_url : string;
  retry : option GithubRetry
}.

(** [rest] and its sub-clients hold the same [Github] handle and nothing
    else, so the wrapper is its handle, its token and its base URL. *)
Record t : Type := {
  _github : Github;
  _token : string;
  _base_url : string
}.

(** PyGithub's [GithubRetry(total=..., backoff_factor=...,
    status_forcelist=...)]: the object keeps the total and the backoff
    factor, and its status list is the given one followed by 403, which
    the constructor adds whatever it is given. *)
Definition GithubRetry_init (the_total the_backoff_factor : Z)
    (the_status_forcelist : list Z) : GithubRetry :=
  {| total := the_total;
     backoff_factor := the_backoff_factor;
     status_forcelist := (the_status_forcelist ++ [403%Z])%list |}.

(** [range(lo, hi)] *)
Definition py_range (lo hi : Z) : list Z :=
  map (fun i => lo + Z.of_nat i) (seq 0 (Z.to_nat (hi - lo))).

Definition default_exempt : list Z := [400; 401; 403; 404; 422].

(** [retry_exempt_status_codes or [400, 401, 403, 404, 422]] *)
Definition exempt_or_default (retry_exempt_status_codes : option (list Z)) : list Z :=
  match retry_exempt_status_codes with
  | Some (code :: codes) => code :: codes
  | Some [] => default_exempt
  | None => default_exempt
  end.

Definition retry_config (retries : Z) (retry_exempt_status_codes : option (list Z))
  : option GithubRetry :=
  let exempt := exempt_or_default retry_exempt_status_codes in
  if (retries >? 0)%Z then
    Some (GithubRetry_init retries 1
            (List.filter (fun x => negb (existsb (Z.eqb x) exempt)) (py_range 400 600)))
  else None.

Definition or_default_url (url : option string) : string :=
  match url with
  | Some u => if str_truthy u then u else "https://api.github.com"
  | None => "https://api.github.com"
  end.

Definition __init__ (token : string) (the_base_url : option string) (retries : Z)
    (retry_exempt_status_codes : option (list Z)) : t :=
  {| _github := {| auth := if str_truthy token then Some token else None;
                   base_url := or_default_url the_base_url;
                   retry := retry_config retries retry_exempt_status_codes |};
     _token := token;
     _base_url := or_default_url the_base_url |}.

(** [paginate(method, *args, **kwargs)]: [call] stands for the arguments,
    which are passed on as they are. *)
Definition paginate (rt : PyRuntime) {A : Type} (method : A -> outcome pyval)
    (call : A) : outcome (list pyval) :=
  results ← method call;
  let all_results : list pyval := [] in
  paginated ← py_hasattr rt results "totalCount";
  if (paginated : bool) then
    items ← py_iter rt results;
    Returns (fold_left (fun acc item => (acc ++ [item])%list) items all_results)
  else Returns (all_results ++ [results])%list.


(** *** The outside of the wrapper

    What the remaining methods do is to call the PyGithub client, the
    objects that it hands out, and [requests.post].  Each such call is an
    [api_call]; a [Remote] says, for a state of the outside world, what a
    call answers and what the world is afterwards. *)
Inductive api_call : Type :=
| GetRepo (client : Github) (full_name : string)
| GetUser (client : Github) (login : string)
| Method (target : pyval) (name : string) (args : list pyval)
    (kwargs : list (string * pyval))
| HttpPost (url : string) (headers : list (string * string)) (json : pyval).

Record Remote : Type := {
  world : Type;
  perform : api_call -> world -> outcome pyval * world
}.

(** Code that talks to the outside: from a world to an outcome and the
    world that the calls made so far have left. *)
Definition api (R : Remote) (A : Type) : Type := world R -> outcome A * world R.

Definition api_bind {R : Remote} {A B : Type} (m : api R A) (k : A -> api R B)
  : api R B :=
  fun w =>
    match m w with
    | (Returns a, w1) => k a w1
    | (Raises e, w1) => (Raises e, w1)
    | (Diverges, w1) => (Diverges, w1)
    end.

Definition request (R : Remote) (c : api_call) : api R pyval := perform R c.

Definition get_repo (R : Remote) (self : t) (owner repo : string) : api R pyval :=
  request R (GetRepo (_github self) (owner +:+ "/" +:+ repo)).

Definition get_user (R : Remote) (self : t) (username : string) : api R pyval :=
  request R (GetUser (_github self) username).

(** [variables] is [PyNone] when the caller gives none. *)
Definition graphql (R : Remote) (self : t) (query : string) (variables : pyval)
  : api R pyval :=
  let headers := [("Authorization", "Bearer " +:+ _token self);
                  ("Content-Type", "application/json")] in
  let data := [("query", PyStr query)] in
  let data := if truthy variables then dict_set data "variables" variables else data in
  api_bind (request R (HttpPost (_base_url self +:+ "/graphql") headers (PyDict data)))
    (fun response =>
  api_bind (request R (Method response "raise_for_status" [] []))
    (fun _ =>
  request R (Method response "json" [] []))).

End GitHubWrapper.

(** ** class IssuesAPI, ReposAPI, PullsAPI, ActionsAPI, RestAPI *)

Module IssuesAPI.
Import GitHubWrapper.

Record t : Type := { _github : Github }.

Definition __init__ (github : Github) : t := {| _github := github |}.

Definition create_comment (R : Remote) (self : t) (owner repo : string)
    (issue_number : Z) (body : string) : api R pyval :=
  api_bind (request R (GetRepo (_github self) (owner +:+ "/" +:+ repo)))
    (fun repository =>
  api_bind (request R (Method repository "get_issue" [PyInt issue_number] []))
    (fun issue =>
  request R (Method issue "create_comment" [PyStr body] []))).

(** [labels] are passed as positional arguments. *)
Definition add_labels (R : Remote) (self : t) (owner repo : string)
    (issue_number : Z) (labels : list pyval) : api R pyval :=
  api_bind (request R (GetRepo (_github self) (owner +:+ "/" +:+ repo)))
    (fun repository =>
  api_bind (request R (Method repository "get_issue" [PyInt issue_number] []))
    (fun issue =>
  request R (Method issue "add_to_labels" labels []))).

Definition list_for_repo (R : Remote) (self : t) (owner repo : string)
    (kwargs : list (string * pyval)) : api R pyval :=
  api_bind (request R (GetRepo (_github self) (owner +:+ "/" +:+ repo)))
    (fun repository =>
  request R (Method repository "get_issues" [] kwargs)).

Definition get (R : Remote) (self : t) (owner repo : string) (issue_number : Z)
  : api R pyval :=
  api_bind (request R (GetRepo (_github self) (owner +:+ "/" +:+ repo)))
    (fun repository =>
  request R (Method repository "get_issue" [PyInt issue_number] [])).

End IssuesAPI.

Module ReposAPI.
Import GitHubWrapper.

Record t : Type := { _github : Github }.

Definition __init__ (github : Github) : t := {| _github := github |}.

Definition get (R : Remote) (self : t) (owner repo : string) : api R pyval :=
  request R (GetRepo (_github self) (owner +:+ "/" +:+ repo)).

Definition get_commit (R : Remote) (self : t) (owner repo ref : string)
  : api R pyval :=
  api_bind (request R (GetRepo (_github self) (owner +:+ "/" +:+ repo)))
    (fun repository =>
  request R (Method repository "get_commit" [PyStr ref] [])).

End ReposAPI.

Module PullsAPI.
Import GitHubWrapper.

Record t : Type := { _github : Github }.

Definition __init__ (github : Github) : t := {| _github := github |}.

Definition list (R : Remote) (self : t) (owner repo : string)
    (kwargs : Datatypes.list (string * pyval)) : api R pyval :=
  api_bind (request R (GetRepo (_github self) (owner +:+ "/" +:+ repo)))
    (fun repository =>
  request R (Method repository "get_pulls" [] kwargs)).

Definition get (R : Remote) (self : t) (owner repo : string) (pull_number : Z)
  : api R pyval :=
  api_bind (request R (GetRepo (_github self) (owner +:+ "/" +:+ repo)))
    (fun repository =>
  request R (Method repository "get_pull" [PyInt pull_number] [])).

End PullsAPI.

Module ActionsAPI.

Record t : Type := { _github : GitHubWrapper.Github }.

Definition __init__ (github : GitHubWrapper.Github) : t := {| _github := github |}.

End ActionsAPI.

Module RestAPI.

Record t : Type := {
  _github : GitHubWrapper.Github;
  issues : IssuesAPI.t;
  repos : ReposAPI.t;
  pulls : PullsAPI.t;
  actions : ActionsAPI.t
}.

Definition __init__ (github : GitHubWrapper.Github) : t :=
  {| _github := github;
     issues := IssuesAPI.__init__ github;
     repos := ReposAPI.__init__ github;
     pulls := PullsAPI.__init__ github;
     actions := ActionsAPI.__init__ github |}.

End RestAPI.

(** [self.rest], as [GitHubWrapper.__init__] sets it. *)
Definition rest (self : GitHubWrapper.t) : RestAPI.t :=
  RestAPI.__init__ (GitHubWrapper._github self).

(** ** run_script *)

Definition exec_globals (github context core : pyval) : gmap string pyval :=
  <["github" := github]> (<["context" := context]> (<["core" := core]> (
  <["os" := PyObj "module os" []]> (<["sys" := PyObj "module sys" []]> (
  <["json" := PyObj "module json" []]> ∅))))).

Definition run_script (rt : PyRuntime) (script : string)
    (github context core : pyval) : outcome pyval :=
  globals ← py_exec rt script (exec_globals github context core);
  Returns (default PyNone (globals !! "__result__")).

(** ** A reference semantics for a fragment of Python

    [exec] is a builtin; what it does on the simplest scripts is fixed
    here so that the runner can be checked on them.  The fragment is:
    lines of the form [NAME = TERM + ... + TERM] with at most 16 terms
    (the interpreter refuses expressions that nest too deep), where a
    term is a decimal literal of at most 18 digits or a name bound in
    the globals, and empty lines.  [MiniPython.exec] answers [None] on
    anything else. *)

Module MiniPython.

Inductive token : Type :=
| TName (s : string)
| TInt (z : Z)
| TPlus
| TAssign.

Definition is_digit (c : ascii) : bool :=
  let n := nat_of_ascii c in (48 <=? n)%nat && (n <=? 57)%nat.

Definition is_name_start (c : ascii) : bool :=
  let n := nat_of_ascii c in
  ((65 <=? n)%nat && (n <=? 90)%nat) || ((97 <=? n)%nat && (n <=? 122)%nat)
  || (n =? 95)%nat.

(** Names that cannot be assigned to, or whose assignment changes how
    names are resolved. *)
Definition reserved : list string :=
  ["False"; "None"; "True"; "and"; "as"; "assert"; "async"; "await";
   "break"; "class"; "continue"; "def"; "del"; "elif"; "else"; "except";
   "finally"; "for"; "from"; "global"; "if"; "import"; "in"; "is";
   "lambda"; "nonlocal"; "not"; "or"; "pass"; "raise"; "return"; "try";
   "while"; "with"; "yield"; "__debug__"; "__builtins__"].

Fixpoint decimal (acc : Z) (digits : string) : Z :=
  match digits with
  | EmptyString => acc
  | String c rest => decimal (10 * acc + Z.of_nat (nat_of_ascii c - 48)) rest
  end.

(** The token being read. *)
Inductive pending : Type :=
| NoToken
| InName (s : string)
| InNumber (digits : string).

Definition finish (p : pending) : option (list token) :=
  match p with
  | NoToken => Some []
  | InName s => if existsb (String.eqb s) reserved then None else Some [TName s]
  | InNumber digits =>
      match digits with
      | String "0" (String _ _) => None
      | _ => if (String.length digits <=? 18)%nat then Some [TInt (decimal 0 digits)]
             else None
      end
  end.

Fixpoint lex (p : pending) (line : string) : option (list token) :=
  match line with
  | EmptyString => finish p
  | String c rest =>
      if is_digit c then
        match p with
        | NoToken => lex (InNumber (String c "")) rest
        | InNumber digits => lex (InNumber (digits +:+ String c "")) rest
        | InName s => lex (InName (s +:+ String c "")) rest
        end
      else if is_name_start c then
        match p with
        | NoToken => lex (InName (String c "")) rest
        | InName s => lex (InName (s +:+ String c "")) rest
        | InNumber _ => None
        end
      else if Ascii.eqb c " " then
        done ← finish p; more ← lex NoToken rest; Some (done ++ more)%list
      else if Ascii.eqb c "+" then
        done ← finish p; more ← lex NoToken rest; Some (done ++ TPlus :: more)%list
      else if Ascii.eqb c "=" then
        done ← finish p; more ← lex NoToken rest; Some (done ++ TAssign :: more)%list
      else None
  end.

Definition term_value (globals : gmap string pyval) (t : token) : option pyval :=
  match t with
  | TInt z => Some (PyInt z)
  | TName x => globals !! x
  | _ => None
  end.

Definition term_int (globals : gmap string pyval) (t : token) : option Z :=
  match term_value globals t with
  | Some (PyInt z) => Some z
  | _ => None
  end.

(** The rest of a sum whose value so far is [acc]. *)
Fixpoint eval_sum (globals : gmap string pyval) (acc : Z) (ts : list token)
  : option Z :=
  match ts with
  | [] => Some acc
  | TPlus :: t :: rest => z ← term_int globals t; eval_sum globals (acc + z) rest
  | _ => None
  end.

(** A name, the sign [=], and 16 terms with 15 signs [+] between them. *)
Definition max_tokens : nat := 33.

(** One line: empty, or an assignment that starts in the first column. *)
Definition exec_line (globals : gmap string pyval) (line : string)
  : option (gmap string pyval) :=
  match line with
  | EmptyString => Some globals
  | String c _ =>
      if Ascii.eqb c " " then None
      else
        tokens ← lex NoToken line;
        if (max_tokens <? length tokens)%nat then None
        else
          match tokens with
          | [TName x; TAssign; t] =>
              v ← term_value globals t; Some (<[x := v]> globals)
          | TName x :: TAssign :: t :: rest =>
              z ← term_int globals t;
              sum ← eval_sum globals z rest;
              Some (<[x := PyInt sum]> globals)
          | _ => None
          end
  end.

Fixpoint exec_lines (globals : gmap string pyval) (lines : list string)
  : option (gmap string pyval) :=
  match lines with
  | [] => Some globals
  | line :: rest => after ← exec_line globals line; exec_lines after rest
  end.

(** [exec] first makes sure that the globals have a [__builtins__]. *)
Definition with_builtins (globals : gmap string pyval) : gmap string pyval :=
  match globals !! "__builtins__" with
  | Some _ => globals
  | None => <["__builtins__" := PyObj "builtins" []]> globals
  end.

Definition lines (source : string) : list string :=
  str_split newline (String.length source) source.

Definition exec (source : string) (globals : gmap string pyval)
  : option (gmap string pyval) :=
  exec_lines (with_builtins globals) (lines source).

(** The name that a line assigns to. *)
Definition target (line : string) : option string :=
  match lex NoToken line with
  | Some (TName x :: TAssign :: _) => Some x
  | _ => None
  end.

(** No line of the source assigns to [name]. *)
Definition never_sets (name source : string) : Prop :=
  Forall (fun line => target line <> Some name) (lines source).

End MiniPython.

(** A runtime's [exec] follows the reference semantics on the fragment. *)
Definition exec_conforms (rt : PyRuntime) : Prop :=
  forall source globals globals',
    MiniPython.exec source globals = Some globals' ->
    py_exec rt source globals = Returns globals'.

(** ** A small runtime to run the model on examples

    It implements each builtin on the simplest inputs only: ASCII text,
    decimal integers with an optional sign, scalar JSON documents and the
    empty containers, the scalars' string forms, instance attributes, and
    the scripts of [MiniPython].  Elsewhere it raises [NotImplementedError],
    which Python would not; the examples below stay inside.  Its
    operating system has UTF-8 everywhere, one directory, [/], one
    device, [/dev/null], a file of its own for every other path, and
    refuses nothing. *)

Module Demo.

Definition not_implemented {A : Type} : outcome A :=
  Raises (ForeignError "NotImplementedError" "").

Definition upper_char (c : ascii) : ascii :=
  let n := nat_of_ascii c in
  if (97 <=? n)%nat && (n <=? 122)%nat then ascii_of_nat (n - 32) else c.

Fixpoint upper (s : string) : string :=
  match s with
  | EmptyString => EmptyString
  | String c rest => String (upper_char c) (upper rest)
  end.

Fixpoint all_digits (s : string) : bool :=
  match s with
  | EmptyString => true
  | String c rest => MiniPython.is_digit c && all_digits rest
  end.

Definition unsigned (s : string) : option Z :=
  match s with
  | EmptyString => None
  | _ => if all_digits s then Some (MiniPython.decimal 0 s) else None
  end.

Definition int (s : string) : string + Z :=
  let parsed :=
    match s with
    | String "-" rest => Z.opp <$> unsigned rest
    | String "+" rest => unsigned rest
    | _ => unsigned s
    end in
  match parsed with
  | Some z => inr z
  | None => inl ("invalid literal for int() with base 10: " +:+ s)
  end.

Definition load (text : string) : outcome pyval :=
  if String.eqb text "{}" then Returns (PyDict [])
  else if String.eqb text "[]" then Returns (PyList [])
  else if String.eqb text "null" then Returns PyNone
  else if String.eqb text "true" then Returns (PyBool true)
  else if String.eqb text "false" then Returns (PyBool false)
  else match int text with
       | inr z => match text with String "+" _ => not_implemented | _ => Returns (PyInt z) end
       | inl _ => not_implemented
       end.

(** The least number that has more than 4300 digits. *)
Definition int_str_limit : Z := Eval vm_compute in (10 ^ 4300)%Z.

(** An integer of more than 4300 digits is not turned into a string. *)
Definition format (v : pyval) : outcome string :=
  match v with
  | PyNone => Returns "None"
  | PyBool true => Returns "True"
  | PyBool false => Returns "False"
  | PyInt z =>
      if (int_str_limit <=? Z.abs z)%Z then
        Raises (ValueError "Exceeds the limit (4300 digits) for integer string conversion")
      else Returns (pretty z)
  | PyStr s => Returns s
  | _ => not_implemented
  end.

Definition hasattr (v : pyval) (name : string) : outcome bool :=
  match v with
  | PyObj _ fields => Returns (bool_decide (is_Some (dict_lookup fields name)))
  | _ => not_implemented
  end.

(** An object iterates over the list in its field [items]. *)
Definition iter (v : pyval) : outcome (list pyval) :=
  match v with
  | PyList items => Returns items
  | PyObj _ fields =>
      match dict_lookup fields "items" with
      | Some (PyList items) => Returns items
      | _ => Raises (TypeError "object is not iterable")
      end
  | _ => not_implemented
  end.

Definition exec (source : string) (globals : gmap string pyval)
  : outcome (gmap string pyval) :=
  match MiniPython.exec source globals with
  | Some globals' => Returns globals'
  | None => not_implemented
  end.

(** The three bytes of a surrogate code point start with 237 and a byte
    from 160 on.  The environment is encoded with the error handler
    surrogateescape, which has bytes for the surrogates from U+DC80 to
    U+DCFF (second byte 178 or 179). *)
Fixpoint has_surrogate (escapes : bool) (s : string) : bool :=
  match s with
  | EmptyString => false
  | String c rest =>
      match rest with
      | EmptyString => false
      | String d _ =>
          ((nat_of_ascii c =? 237)%nat && (160 <=? nat_of_ascii d)%nat
           && negb (escapes && ((nat_of_ascii d =? 178)%nat || (nat_of_ascii d =? 179)%nat)))
          || has_surrogate escapes rest
      end
  end.

Definition encode_error : pyexn :=
  UnicodeEncodeError "'utf-8' codec can't encode character: surrogates not allowed".

Definition refuses_key (key : string) : option pyexn :=
  if has_surrogate true key then Some encode_error else None.

Definition refuses_text (text : string) : option pyexn :=
  if has_surrogate false text then Some encode_error else None.

Definition is_dir (file : string) : bool := String.eqb file "/".

(** The null device: it reads as empty and takes what is written. *)
Definition dev_null : special :=
  {| special_read := Returns "";
     special_open := Returns tt;
     special_write := fun _ => Returns tt |}.

Definition device (file : string) : option special :=
  if String.eqb file "/dev/null" then Some dev_null else None.

Definition runtime : PyRuntime :=
  {| str_upper := upper;
     py_int := int;
     json_load := load;
     py_format := format;
     py_hasattr := hasattr;
     py_iter := iter;
     py_exec := exec;
     environ_refuses := refuses_key;
     stdout_refuses := refuses_text;
     write_refuses := refuses_text;
     os_locate := fun path => path;
     os_is_dir := is_dir;
     os_special := device;
     os_refuses := fun _ _ => None |}.

(** The text of the one code point U+D800, a surrogate. *)
Definition surrogate : string :=
  String (ascii_of_nat 237) (String (ascii_of_nat 160) (String (ascii_of_nat 128) "")).

End Demo.


(** ** Notions used in the statements *)

(** The payload is a document with an [issue] object that has a
    [number]. *)
Definition has_issue_number (the_payload number : pyval) : Prop :=
  exists entries issue_entries,
    the_payload = PyDict entries /\
    dict_lookup entries "issue" = Some (PyDict issue_entries) /\
    dict_lookup issue_entries "number" = Some number.

(** The [number] of the object under [key], [None] when there is no such
    object or it has no [number]. *)
Definition number_under (entries : list (string * pyval)) (key : string) : pyval :=
  match dict_lookup entries key with
  | Some (PyDict sub) => default PyNone (dict_lookup sub "number")
  | _ => PyNone
  end.

(** What is under [key], if anything, is an object. *)
Definition object_or_absent (entries : list (string * pyval)) (key : string) : Prop :=
  match dict_lookup entries key with
  | Some (PyDict _) => True
  | Some _ => False
  | None => True
  end.





(** [path] can be opened for appending, and names a regular file or
    nothing yet: it is not empty, the operating system allows the
    access, and it names neither a directory nor a device. *)
Definition appendable (rt : PyRuntime) (path : string) : Prop :=
  path <> "" /\
  os_refuses rt Append path = None /\
  os_is_dir rt (os_locate rt path) = false /\
  os_special rt (os_locate rt path) = None.




(** The exempt set as the specification words it: the caller's, or the
    default when the caller gives none. *)
Definition spec_exempt (retry_exempt_status_codes : option (list Z)) : list Z :=
  match retry_exempt_status_codes with
  | Some codes => codes
  | None => GitHubWrapper.default_exempt
  end.

(** The retry configuration that a wrapper's client was made with. *)
Definition retry_of (w : GitHubWrapper.t) : option GitHubWrapper.GithubRetry :=
  GitHubWrapper.retry (GitHubWrapper._github w).

(** A context with the given payload and nothing else set. *)
Definition bare_context (the_payload : pyval) : Context.t :=
  {| Context.payload := the_payload;
     Context.event_name := ""; Context.sha := ""; Context.ref := "";
     Context.workflow := ""; Context.action := ""; Context.actor := "";
     Context.job := ""; Context.run_number := 0; Context.run_id := 0;
     Context.api_url := ""; Context.server_url := ""; Context.graphql_url := "" |}.

(** A remote that also keeps the list of the calls made to it. *)
Definition traced (R : GitHubWrapper.Remote) : GitHubWrapper.Remote :=
  {| GitHubWrapper.world := (GitHubWrapper.world R * list GitHubWrapper.api_call)%type;
     GitHubWrapper.perform := fun c state =>
       let '(o, w) := GitHubWrapper.perform R c (fst state) in
       (o, (w, (snd state ++ [c])%list)) |}.

(** [prog] makes the call [first] and, when that returns [x], the call
    [second x], and nothing else; its outcome is that of the last call
    made. *)
Definition two_step (R : GitHubWrapper.Remote)
    (prog : GitHubWrapper.api (traced R) pyval)
    (first : GitHubWrapper.api_call) (second : pyval -> GitHubWrapper.api_call) : Prop :=
  forall w log,
    (forall e w1,
        GitHubWrapper.perform R first w = (Raises e, w1) ->
        prog (w, log) = (Raises e, (w1, (log ++ [first])%list)))
    /\ (forall x w1 o w2,
        GitHubWrapper.perform R first w = (Returns x, w1) ->
        GitHubWrapper.perform R (second x) w1 = (o, w2) ->
        prog (w, log) = (o, (w2, (log ++ [first; second x])%list))).

(** The same with a third call [third x y] when the second returns [y]. *)
Definition three_step (R : GitHubWrapper.Remote)
    (prog : GitHubWrapper.api (traced R) pyval)
    (first : GitHubWrapper.api_call) (second : pyval -> GitHubWrapper.api_call)
    (third : pyval -> pyval -> GitHubWrapper.api_call) : Prop :=
  forall w log,
    (forall e w1,
        GitHubWrapper.perform R first w = (Raises e, w1) ->
        prog (w, log) = (Raises e, (w1, (log ++ [first])%list)))
    /\ (forall x w1 e w2,
        GitHubWrapper.perform R first w = (Returns x, w1) ->
        GitHubWrapper.perform R (second x) w1 = (Raises e, w2) ->
        prog (w, log) = (Raises e, (w2, (log ++ [first; second x])%list)))
    /\ (forall x w1 y w2 o w3,
        GitHubWrapper.perform R first w = (Returns x, w1) ->
        GitHubWrapper.perform R (second x) w1 = (Returns y, w2) ->
        GitHubWrapper.perform R (third x y) w2 = (o, w3) ->
        prog (w, log) = (o, (w3, (log ++ [first; second x; third x y])%list))).

(** * Properties *)

(** ** Strings *)

Lemma str_truthy_true (s : string) : str_truthy s = true <-> s <> "".
Proof.
  unfold str_truthy. destruct (String.eqb_spec s ""); simpl; split; congruence.
Qed.

Lemma str_truthy_false (s : string) : str_truthy s = false <-> s = "".
Proof.
  unfold str_truthy. destruct (String.eqb_spec s ""); simpl; split; congruence.
Qed.

Lemma str_split_zero (sep : ascii) (s : string) : str_split sep 0 s = [s].
Proof.
  induction s as [|c rest IH]; simpl; [reflexivity|].
  destruct (Ascii.eqb c sep); [reflexivity|]. now rewrite IH.
Qed.

(** Splitting once cuts at the first separator. *)
Lemma str_split_once (sep : ascii) (before after : string) :
  str_contains sep before = false ->
  str_split sep 1 (before +:+ String sep after) = [before; after].
Proof.
  induction before as [|c rest IH]; simpl; intros Hfree.
  - rewrite Ascii.eqb_refl. now rewrite str_split_zero.
  - apply orb_false_iff in Hfree as [Hc Hrest].
    rewrite Hc, (IH Hrest). reflexivity.
Qed.

(** Two pieces come only from a string with a separator, cut at the
    first one. *)
Lemma str_split_once_inv (sep : ascii) (s before after : string) :
  str_split sep 1 s = [before; after] ->
  s = before +:+ String sep after /\ str_contains sep before = false.
Proof.
  revert before. induction s as [|c rest IH]; simpl; intros before Hsplit.
  - discriminate.
  - destruct (Ascii.eqb_spec c sep) as [->|Hne].
    + rewrite str_split_zero in Hsplit. injection Hsplit as <- <-. now split.
    + destruct (str_split sep 1 rest) as [|piece pieces] eqn:Hrest; [discriminate|].
      injection Hsplit as <- ->.
      destruct (IH piece eq_refl) as [-> Hfree]. split; [reflexivity|].
      simpl. rewrite Hfree. now destruct (Ascii.eqb_spec c sep).
Qed.

(** Without a separator there is one piece. *)
Lemma str_split_none (sep : ascii) (n : nat) (s : string) :
  str_contains sep s = false -> str_split sep n s = [s].
Proof.
  induction s as [|c rest IH]; simpl; intros Hfree; [reflexivity|].
  apply orb_false_iff in Hfree as [-> Hrest]. now rewrite (IH Hrest).
Qed.

Lemma str_replace_gone (old new : ascii) (s : string) :
  old <> new -> str_contains old (str_replace old new s) = false.
Proof.
  intros Hne. induction s as [|c rest IH]; simpl; [reflexivity|].
  rewrite IH, orb_false_r.
  destruct (Ascii.eqb_spec c old) as [->|Hc].
  - destruct (Ascii.eqb_spec new old); congruence.
  - destruct (Ascii.eqb_spec c old); congruence.
Qed.

Lemma str_replace_length (old new : ascii) (s : string) :
  String.length (str_replace old new s) = String.length s.
Proof. induction s; simpl; congruence. Qed.


Lemma str_app_assoc (s t u : string) : (s +:+ t) +:+ u = s +:+ t +:+ u.
Proof.
  induction s as [|c rest IH]; [reflexivity|].
  change (String c ((rest +:+ t) +:+ u) = String c (rest +:+ t +:+ u)).
  now f_equal.
Qed.

Lemma str_cons_app (c : ascii) (s t : string) : String c s +:+ t = String c (s +:+ t).
Proof. reflexivity. Qed.

Lemma str_nil_app (t : string) : "" +:+ t = t.
Proof. reflexivity. Qed.

Ltac str_norm :=
  repeat (rewrite str_app_assoc || rewrite str_cons_app || rewrite str_nil_app).








(** ** Context.repo *)

(** C3. For a GITHUB_REPOSITORY of the form owner/name, [repo] is
    [{owner, repo}] cut at the first slash (a later slash stays in the
    name); when the variable is absent the default "/" gives two empty
    strings and no error; and [repo] returns nothing that is not such a
    split. *)
Theorem repo_splits_once (env : gmap string string) :
  (forall owner name,
      env !! "GITHUB_REPOSITORY" = Some (owner +:+ String slash name) ->
      str_contains slash owner = false ->
      Context.repo env = Returns (PyDict [("owner", PyStr owner); ("repo", PyStr name)]))
  /\ (env !! "GITHUB_REPOSITORY" = None ->
      Context.repo env = Returns (PyDict [("owner", PyStr ""); ("repo", PyStr "")]))
  /\ (forall d, Context.repo env = Returns d ->
      exists owner name,
        getenv_or env "GITHUB_REPOSITORY" "/" = owner +:+ String slash name /\
        str_contains slash owner = false /\
        d = PyDict [("owner", PyStr owner); ("repo", PyStr name)]).
Proof.
  unfold Context.repo, getenv_or. repeat split.
  - intros owner name -> Hfree. simpl. now rewrite (str_split_once _ _ _ Hfree).
  - intros ->. reflexivity.
  - intros d.
    destruct (str_split slash 1 (default "/" (env !! "GITHUB_REPOSITORY")))
      as [|owner [|name [|extra pieces]]] eqn:Hsplit; try discriminate.
    intros [= <-]. apply str_split_once_inv in Hsplit as [Heq Hfree].
    exists owner, name. now rewrite Heq.
Qed.

(** ** Core.get_input *)

(** The variable that carries an input, whatever the runtime. *)
Lemma input_key_shape (rt : PyRuntime) (name : string) :
  exists upper_name,
    Core.input_key rt name = "INPUT_" +:+ upper_name /\
    str_contains "-"%char upper_name = false /\
    String.length upper_name = String.length (str_upper rt name) /\
    upper_name = str_replace "-"%char "_"%char (str_upper rt name).
Proof.
  eexists. split; [reflexivity|]. split; [|split; [|reflexivity]].
  - now apply str_replace_gone.
  - apply str_replace_length.
Qed.

(** [os.getenv] raises on a key that it cannot encode, whatever
    [required] is. *)
Lemma get_input_refused (rt : PyRuntime) (env : gmap string string)
    (name : string) (required : bool) (e : pyexn) :
  environ_refuses rt (Core.input_key rt name) = Some e ->
  Core.get_input rt env name required = Raises e.
Proof. unfold Core.get_input. now intros ->. Qed.

(** On a key that [os.getenv] can encode, the call is the test on the
    value that the variable has, or on the empty text. *)
Lemma get_input_looked_up (rt : PyRuntime) (env : gmap string string)
    (name : string) (required : bool) :
  environ_refuses rt (Core.input_key rt name) = None ->
  Core.get_input rt env name required
  = if required && negb (str_truthy (getenv_or env (Core.input_key rt name) ""))
    then Raises (ValueError ("Input required and not supplied: " +:+ name))
    else Returns (getenv_or env (Core.input_key rt name) "").
Proof. unfold Core.get_input. now intros ->. Qed.

(** The demo runtime cannot encode the variable of the input named by a
    lone surrogate: the call raises although nothing is required. *)
Lemma get_input_surrogate (env : gmap string string) (required : bool) :
  Core.get_input Demo.runtime env Demo.surrogate required = Raises Demo.encode_error.
Proof. now apply get_input_refused. Qed.

(** C4, as the code has it.  The variable read is INPUT_ followed by the
    upper-cased name in which every dash has become an underscore.  When
    [os.getenv] can encode that name, the call raises exactly when
    [required] holds and the variable is absent or empty, what it raises
    is the ValueError about the missing input, and in every other case
    it returns the variable's value as it is (the empty string for an
    absent variable).  When [os.getenv] cannot encode the name, the call
    raises what [os.getenv] raises, whatever [required] is. *)
Theorem get_input_required (rt : PyRuntime) (env : gmap string string)
    (name : string) (required : bool) :
  (exists upper_name,
      Core.input_key rt name = "INPUT_" +:+ upper_name /\
      str_contains "-"%char upper_name = false /\
      String.length upper_name = String.length (str_upper rt name) /\
      upper_name = str_replace "-"%char "_"%char (str_upper rt name))
  /\ (environ_refuses rt (Core.input_key rt name) = None ->
      ((exists e, Core.get_input rt env name required = Raises e) <->
       required = true /\
       (env !! Core.input_key rt name = None \/ env !! Core.input_key rt name = Some ""))
      /\ (forall e, Core.get_input rt env name required = Raises e ->
          e = ValueError ("Input required and not supplied: " +:+ name))
      /\ (forall v, env !! Core.input_key rt name = Some v ->
          (required = true -> v <> "") ->
          Core.get_input rt env name required = Returns v)
      /\ (required = false -> env !! Core.input_key rt name = None ->
          Core.get_input rt env name required = Returns "")
      /\ Core.get_input rt env name required <> Diverges)
  /\ (forall e, environ_refuses rt (Core.input_key rt name) = Some e ->
      Core.get_input rt env name required = Raises e).
Proof.
  split; [apply input_key_shape|]. split; [|apply get_input_refused].
  intros Hkey. rewrite (get_input_looked_up _ _ _ _ Hkey). unfold getenv_or.
  split; [|split; [|split; [|split]]].
  - destruct required, (env !! Core.input_key rt name) as [v|] eqn:Hv; simpl.
    + destruct (String.eqb_spec v "") as [->|Hne]; unfold str_truthy; simpl.
      * split; [intros _; split; [reflexivity | now right] | intros _; eauto].
      * rewrite (proj2 (String.eqb_neq v "") Hne). simpl. split.
        -- intros [e He]. discriminate.
        -- intros [_ [H|H]]; congruence.
    + split; [intros _; split; [reflexivity | now left] | intros _; eauto].
    + split; [intros [e He]; discriminate | intros [H _]; discriminate].
    + split; [intros [e He]; discriminate | intros [H _]; discriminate].
  - intros e. destruct (required && negb _); [now intros [= <-] | discriminate].
  - intros v Hv Hreq. rewrite Hv. simpl.
    destruct required; simpl; [|reflexivity].
    specialize (Hreq eq_refl). apply str_truthy_true in Hreq. now rewrite Hreq.
  - intros -> Hv. now rewrite Hv.
  - now destruct (required && negb _).
Qed.

(** C4, as the specification words it, fails: for the input named by a
    lone surrogate the call raises (UnicodeEncodeError, which is a
    ValueError) although [required] is false, and so it does not return
    the value of the variable either. *)
Lemma get_input_required_counterexample :
  ~ (forall rt env name required,
       (exists e, Core.get_input rt env name required = Raises e) <->
       required = true /\
       (env !! Core.input_key rt name = None \/ env !! Core.input_key rt name = Some ""))
  /\ ~ (forall rt env name required,
       ~ (required = true /\
          (env !! Core.input_key rt name = None \/
           env !! Core.input_key rt name = Some "")) ->
       Core.get_input rt env name required
       = Returns (getenv_or env (Core.input_key rt name) "")).
Proof.
  split; intros Hclaim.
  - destruct (proj1 (Hclaim Demo.runtime ∅ Demo.surrogate false)) as [Hrequired _].
    + exists Demo.encode_error. apply get_input_surrogate.
    + discriminate.
  - specialize (Hclaim Demo.runtime ∅ Demo.surrogate false).
    rewrite get_input_surrogate in Hclaim.
    assert (Hfalse : Raises Demo.encode_error
                     = Returns (getenv_or ∅ (Core.input_key Demo.runtime Demo.surrogate) ""));
      [|discriminate].
    apply Hclaim. intros [Hrequired _]. discriminate.
Qed.

(** C9, as the code has it.  With [required] false and a name whose
    variable [os.getenv] can encode, [get_input] returns for every
    environment, and what it returns for an absent variable is the empty
    string.  For a name whose variable [os.getenv] cannot encode, the
    call raises. *)
Theorem get_input_optional_total (rt : PyRuntime) (env : gmap string string)
    (name : string) :
  (environ_refuses rt (Core.input_key rt name) = None ->
   (exists v, Core.get_input rt env name false = Returns v)
   /\ (forall e, Core.get_input rt env name false <> Raises e)
   /\ Core.get_input rt env name false <> Diverges
   /\ (env !! Core.input_key rt name = None ->
       Core.get_input rt env name false = Returns "")
   /\ (forall v, env !! Core.input_key rt name = Some v ->
       Core.get_input rt env name false = Returns v))
  /\ (forall e, environ_refuses rt (Core.input_key rt name) = Some e ->
      Core.get_input rt env name false = Raises e /\
      forall v, Core.get_input rt env name false <> Returns v).
Proof.
  split.
  - intros Hkey. rewrite (get_input_looked_up _ _ _ _ Hkey). unfold getenv_or. simpl.
    repeat split.
    + eauto.
    + discriminate.
    + discriminate.
    + now intros ->.
    + now intros v ->.
  - intros e Hkey. rewrite (get_input_refused _ _ _ _ _ Hkey). split; [reflexivity|].
    discriminate.
Qed.

(** C9, as the specification words it, fails: with [required] false the
    call on the name made of a lone surrogate raises. *)
Lemma get_input_optional_counterexample :
  ~ (forall rt env name e, Core.get_input rt env name false <> Raises e).
Proof.
  intros Hclaim.
  apply (Hclaim Demo.runtime ∅ Demo.surrogate Demo.encode_error).
  apply get_input_surrogate.
Qed.

(** ** Context construction *)

(** What exists is a directory, a device or a regular file. *)
Lemma path_exists_true (rt : PyRuntime) (fs : gmap string string) (path : string) :
  path_exists rt fs path = true ->
  path <> "" /\
  os_refuses rt Stat path = None /\
  (os_is_dir rt (os_locate rt path) = true \/
   (exists device, os_special rt (os_locate rt path) = Some device) \/
   exists text, fs !! os_locate rt path = Some text).
Proof.
  unfold path_exists. intros H.
  apply andb_true_iff in H as [H Hthere]. apply andb_true_iff in H as [Hpath Hstat].
  split; [now apply str_truthy_true|]. split.
  - now destruct (os_refuses rt Stat path).
  - apply orb_true_iff in Hthere as [Hthere|Hfile].
    + apply orb_true_iff in Hthere as [Hdir|Hdevice]; [now left|right; left].
      apply bool_decide_eq_true in Hdevice as [device Hdevice]. eauto.
    + right; right. apply bool_decide_eq_true in Hfile as [text Htext]. eauto.
Qed.

(** The payload when GITHUB_EVENT_PATH names something that exists. *)
Lemma load_payload_reads (rt : PyRuntime) (env fs : gmap string string)
    (path : string) :
  env !! "GITHUB_EVENT_PATH" = Some path ->
  path_exists rt fs path = true ->
  Context._load_payload rt env fs = (text ← file_read rt fs path; json_load rt text).
Proof.
  intros Henv Hexists. unfold Context._load_payload. rewrite Henv, Hexists.
  apply path_exists_true in Hexists as [Hpath _].
  apply str_truthy_true in Hpath. now rewrite Hpath.
Qed.

(** A context is constructed exactly from a payload that loads and two
    numbers that parse, and its payload is the loaded one. *)
Lemma init_returns (rt : PyRuntime) (env fs : gmap string string) (ctx : Context.t) :
  Context.__init__ rt env fs = Returns ctx ->
  Context._load_payload rt env fs = Returns (Context.payload ctx).
Proof.
  unfold Context.__init__.
  destruct (Context._load_payload rt env fs) as [p| |]; simpl; try discriminate.
  destruct (parse_int rt (getenv_or env "GITHUB_RUN_NUMBER" "0")) as [n| |];
    simpl; try discriminate.
  destruct (parse_int rt (getenv_or env "GITHUB_RUN_ID" "0")) as [m| |];
    simpl; try discriminate.
  now intros [= <-].
Qed.

Lemma init_with_payload (rt : PyRuntime) (env fs : gmap string string)
    (p : pyval) (n m : Z) :
  Context._load_payload rt env fs = Returns p ->
  py_int rt (getenv_or env "GITHUB_RUN_NUMBER" "0") = inr n ->
  py_int rt (getenv_or env "GITHUB_RUN_ID" "0") = inr m ->
  exists ctx, Context.__init__ rt env fs = Returns ctx /\ Context.payload ctx = p.
Proof.
  intros Hp Hn Hm. unfold Context.__init__, parse_int. rewrite Hp, Hn, Hm. simpl.
  eexists. split; reflexivity.
Qed.

(** When the demo runtime's [json.load] fails, it is not with an error
    of the operating system. *)
Lemma demo_load_no_os_error (text msg : string) :
  Demo.load text <> Raises (OSError msg).
Proof.
  unfold Demo.load, Demo.not_implemented.
  repeat match goal with
         | |- context [if ?b then _ else _] => destruct b; try discriminate
         end.
  destruct (Demo.int text); [discriminate|]. destruct text as [|c rest]; [discriminate|].
  destruct (Ascii.eqb_spec c "+"%char) as [->|Hne]; [discriminate|].
  destruct c as [[] [] [] [] [] [] [] []]; discriminate.
Qed.

(** C8, as the code has it.  The payload comes from the file named by
    GITHUB_EVENT_PATH.  When the variable is set and the path exists:
    if it names a regular file that [open] may read, the payload is what
    [json.load] makes of the file's text; if it names a directory, or
    [open] is refused, loading raises the error of [open], and so does
    construction; if it names a device, the payload is what [json.load]
    makes of what the device gives.  When the variable is unset or empty,
    or the path does not exist, the payload is the empty document.
    Construction returns a context with the loaded payload whenever the
    payload loads and the run numbers parse, it has no other payload, and
    it raises what loading raises. *)
Theorem load_payload_cases (rt : PyRuntime) (env fs : gmap string string) :
  (forall path, env !! "GITHUB_EVENT_PATH" = Some path ->
      path_exists rt fs path = true ->
      os_refuses rt Read path = None ->
      os_is_dir rt (os_locate rt path) = false ->
      os_special rt (os_locate rt path) = None ->
      exists text, fs !! os_locate rt path = Some text /\
                   Context._load_payload rt env fs = json_load rt text)
  /\ (forall path, env !! "GITHUB_EVENT_PATH" = Some path ->
      path_exists rt fs path = true ->
      os_refuses rt Read path = None ->
      os_is_dir rt (os_locate rt path) = true ->
      Context._load_payload rt env fs = Raises (OSError "IsADirectoryError"))
  /\ (forall path e, env !! "GITHUB_EVENT_PATH" = Some path ->
      path_exists rt fs path = true ->
      os_refuses rt Read path = Some e ->
      Context._load_payload rt env fs = Raises e)
  /\ (forall path device, env !! "GITHUB_EVENT_PATH" = Some path ->
      path_exists rt fs path = true ->
      os_refuses rt Read path = None ->
      os_is_dir rt (os_locate rt path) = false ->
      os_special rt (os_locate rt path) = Some device ->
      Context._load_payload rt env fs = (text ← special_read device; json_load rt text))
  /\ (env !! "GITHUB_EVENT_PATH" = None \/ env !! "GITHUB_EVENT_PATH" = Some "" ->
      Context._load_payload rt env fs = Returns (PyDict []))
  /\ (forall path, env !! "GITHUB_EVENT_PATH" = Some path ->
      path_exists rt fs path = false ->
      Context._load_payload rt env fs = Returns (PyDict []))
  /\ (forall p n m,
      Context._load_payload rt env fs = Returns p ->
      py_int rt (getenv_or env "GITHUB_RUN_NUMBER" "0") = inr n ->
      py_int rt (getenv_or env "GITHUB_RUN_ID" "0") = inr m ->
      exists ctx, Context.__init__ rt env fs = Returns ctx /\ Context.payload ctx = p)
  /\ (forall ctx, Context.__init__ rt env fs = Returns ctx ->
      Context._load_payload rt env fs = Returns (Context.payload ctx))
  /\ (forall e, Context._load_payload rt env fs = Raises e ->
      Context.__init__ rt env fs = Raises e).
Proof.
  split; [|split; [|split; [|split; [|split; [|split; [|split; [|split]]]]]]].
  - intros path Henv Hexists Hread Hdir Hdevice.
    rewrite (load_payload_reads _ _ _ _ Henv Hexists).
    apply path_exists_true in Hexists
      as (Hpath & _ & [Hdir'|[[device Hdevice']|[text Htext]]]); [congruence..|].
    exists text. split; [assumption|]. apply str_truthy_true in Hpath.
    unfold file_read. now rewrite Hpath, Hread, Hdir, Hdevice, Htext.
  - intros path Henv Hexists Hread Hdir.
    rewrite (load_payload_reads _ _ _ _ Henv Hexists).
    apply path_exists_true in Hexists as (Hpath & _). apply str_truthy_true in Hpath.
    unfold file_read. now rewrite Hpath, Hread, Hdir.
  - intros path e Henv Hexists Hread.
    rewrite (load_payload_reads _ _ _ _ Henv Hexists).
    apply path_exists_true in Hexists as (Hpath & _). apply str_truthy_true in Hpath.
    unfold file_read. now rewrite Hpath, Hread.
  - intros path device Henv Hexists Hread Hdir Hdevice.
    rewrite (load_payload_reads _ _ _ _ Henv Hexists).
    apply path_exists_true in Hexists as (Hpath & _). apply str_truthy_true in Hpath.
    unfold file_read. now rewrite Hpath, Hread, Hdir, Hdevice.
  - unfold Context._load_payload. now intros [-> | ->].
  - intros path Henv Hexists. unfold Context._load_payload.
    now rewrite Henv, Hexists, andb_false_r.
  - apply init_with_payload.
  - apply init_returns.
  - intros e He. unfold Context.__init__. now rewrite He.
Qed.

(** C8, as the specification words it, fails: a GITHUB_EVENT_PATH that
    names a directory exists, and the payload is not what [json.load]
    makes of any text: [open] raises IsADirectoryError, and no context
    is constructed. *)
Lemma load_payload_counterexample :
  ~ (forall rt env fs path,
       env !! "GITHUB_EVENT_PATH" = Some path ->
       path_exists rt fs path = true ->
       exists text, Context._load_payload rt env fs = json_load rt text).
Proof.
  assert (Henv : (<["GITHUB_EVENT_PATH" := "/"]> ∅ : gmap string string)
                 !! "GITHUB_EVENT_PATH" = Some "/") by reflexivity.
  intros Hclaim.
  destruct (Hclaim Demo.runtime (<["GITHUB_EVENT_PATH" := "/"]> ∅) ∅ "/" Henv eq_refl)
    as [text Htext].
  assert (Hload : Context._load_payload Demo.runtime
                    (<["GITHUB_EVENT_PATH" := "/"]> ∅) ∅
                  = Raises (OSError "IsADirectoryError")) by reflexivity.
  rewrite Hload in Htext. symmetry in Htext.
  exact (demo_load_no_os_error text "IsADirectoryError" Htext).
Qed.

(** Construction on a directory: what [open] raises. *)
Example payload_of_directory :
  Context.__init__ Demo.runtime (<["GITHUB_EVENT_PATH" := "/"]> ∅) ∅
  = Raises (OSError "IsADirectoryError").
Proof. reflexivity. Qed.

Lemma parse_int_ok (rt : PyRuntime) (s : string) (z : Z) :
  py_int rt s = inr z -> parse_int rt s = Returns z.
Proof. unfold parse_int. now intros ->. Qed.

Lemma parse_int_fails (rt : PyRuntime) (s msg : string) :
  py_int rt s = inl msg -> parse_int rt s = Raises (ValueError msg).
Proof. unfold parse_int. now intros ->. Qed.

(** C10. GITHUB_RUN_NUMBER and GITHUB_RUN_ID are read through [int], each
    with the text "0" when unset, so an unset variable gives 0; and when
    either is set to a text that [int] rejects, construction gives no
    context: it fails, with the ValueError of [int] once the payload has
    been loaded. *)
Theorem run_numbers_parse (rt : PyRuntime) (env fs : gmap string string)
    (Hzero : py_int rt "0" = inr 0%Z) :
  (forall p n m,
      Context._load_payload rt env fs = Returns p ->
      py_int rt (getenv_or env "GITHUB_RUN_NUMBER" "0") = inr n ->
      py_int rt (getenv_or env "GITHUB_RUN_ID" "0") = inr m ->
      exists ctx, Context.__init__ rt env fs = Returns ctx /\
                  Context.run_number ctx = n /\ Context.run_id ctx = m)
  /\ (forall p,
      Context._load_payload rt env fs = Returns p ->
      env !! "GITHUB_RUN_NUMBER" = None -> env !! "GITHUB_RUN_ID" = None ->
      exists ctx, Context.__init__ rt env fs = Returns ctx /\
                  Context.run_number ctx = 0%Z /\ Context.run_id ctx = 0%Z)
  /\ (forall ctx, Context.__init__ rt env fs = Returns ctx ->
      (env !! "GITHUB_RUN_NUMBER" = None -> Context.run_number ctx = 0%Z) /\
      (env !! "GITHUB_RUN_ID" = None -> Context.run_id ctx = 0%Z))
  /\ (forall s msg,
      env !! "GITHUB_RUN_NUMBER" = Some s \/ env !! "GITHUB_RUN_ID" = Some s ->
      py_int rt s = inl msg ->
      (forall ctx, Context.__init__ rt env fs <> Returns ctx) /\
      (forall p, Context._load_payload rt env fs = Returns p ->
         exists msg', Context.__init__ rt env fs = Raises (ValueError msg'))).
Proof.
  assert (Hgood : forall p n m,
      Context._load_payload rt env fs = Returns p ->
      py_int rt (getenv_or env "GITHUB_RUN_NUMBER" "0") = inr n ->
      py_int rt (getenv_or env "GITHUB_RUN_ID" "0") = inr m ->
      exists ctx, Context.__init__ rt env fs = Returns ctx /\
                  Context.run_number ctx = n /\ Context.run_id ctx = m).
  { intros p n m Hp Hn Hm. unfold Context.__init__.
    rewrite Hp, (parse_int_ok _ _ _ Hn), (parse_int_ok _ _ _ Hm). simpl.
    eexists. split; [reflexivity|]. now split. }
  split; [exact Hgood|]. split; [|split].
  - intros p Hp Hn Hm. apply (Hgood p); [assumption| |]; unfold getenv_or.
    + now rewrite Hn.
    + now rewrite Hm.
  - intros ctx. unfold Context.__init__.
    destruct (Context._load_payload rt env fs) as [p| |]; simpl; try discriminate.
    unfold parse_int, getenv_or.
    destruct (py_int rt (default "0" (env !! "GITHUB_RUN_NUMBER"))) as [?|n] eqn:Hn;
      simpl; try discriminate.
    destruct (py_int rt (default "0" (env !! "GITHUB_RUN_ID"))) as [?|m] eqn:Hm;
      simpl; try discriminate.
    intros [= <-]. simpl. split; intros Hnone; rewrite Hnone in *; simpl in *; congruence.
  - intros s msg Hset Hbad. unfold Context.__init__.
    destruct (Context._load_payload rt env fs) as [p| |]; simpl;
      [|split; [discriminate|intros ? [=]]|split; [discriminate|intros ? [=]]].
    destruct Hset as [Hset|Hset].
    + assert (Hs : getenv_or env "GITHUB_RUN_NUMBER" "0" = s)
        by (unfold getenv_or; now rewrite Hset).
      rewrite Hs, (parse_int_fails _ _ _ Hbad). simpl.
      split; [discriminate|]. intros _ _. eauto.
    + assert (Hs : getenv_or env "GITHUB_RUN_ID" "0" = s)
        by (unfold getenv_or; now rewrite Hset).
      rewrite Hs, (parse_int_fails _ _ _ Hbad).
      unfold parse_int.
      destruct (py_int rt (getenv_or env "GITHUB_RUN_NUMBER" "0")) as [msg0|n]; simpl.
      * split; [discriminate|]. intros _ _. eauto.
      * split; [discriminate|]. intros _ _. eauto.
Qed.

(** The demo runtime reads "0" as 0: with nothing set both fields are 0,
    and a GITHUB_RUN_ID of "12a" makes construction raise. *)
Lemma run_numbers_parse_witness :
  py_int Demo.runtime "0" = inr 0%Z /\
  (exists ctx, Context.__init__ Demo.runtime ∅ ∅ = Returns ctx /\
               Context.run_number ctx = 0%Z /\ Context.run_id ctx = 0%Z) /\
  (exists msg, Context.__init__ Demo.runtime (<["GITHUB_RUN_ID" := "12a"]> ∅) ∅
               = Raises (ValueError msg)).
Proof.
  split; [reflexivity|]. split.
  - destruct (run_numbers_parse Demo.runtime ∅ ∅ eq_refl) as (_ & Hunset & _).
    apply (Hunset (PyDict [])); reflexivity.
  - destruct (run_numbers_parse Demo.runtime (<["GITHUB_RUN_ID" := "12a"]> ∅) ∅ eq_refl)
      as (_ & _ & _ & Hbad).
    destruct (Hbad "12a" "invalid literal for int() with base 10: 12a") as [_ Hraise].
    + right. reflexivity.
    + reflexivity.
    + apply (Hraise (PyDict [])). reflexivity.
Defined.

(** ** GitHubWrapper.paginate *)

Lemma collect_appends (items acc : list pyval) :
  fold_left (fun acc item => (acc ++ [item])%list) items acc = (acc ++ items)%list.
Proof.
  revert acc. induction items as [|item rest IH]; intros acc; simpl.
  - now rewrite app_nil_r.
  - rewrite IH, <- app_assoc. reflexivity.
Qed.

(** C6. [paginate] calls the method on the arguments it was given.  When
    the object that comes back has a [totalCount], the result is the list
    of the elements that iterating it yields, in that order; when it has
    none, the result is the one-element list of that object.  A method
    that raises makes [paginate] raise the same. *)
Theorem paginate_collects (rt : PyRuntime) (A : Type)
    (method : A -> outcome pyval) (call : A) :
  (forall results items,
      method call = Returns results ->
      py_hasattr rt results "totalCount" = Returns true ->
      py_iter rt results = Returns items ->
      GitHubWrapper.paginate rt method call = Returns items)
  /\ (forall results,
      method call = Returns results ->
      py_hasattr rt results "totalCount" = Returns false ->
      GitHubWrapper.paginate rt method call = Returns [results])
  /\ (forall e, method call = Raises e ->
      GitHubWrapper.paginate rt method call = Raises e).
Proof.
  unfold GitHubWrapper.paginate. repeat split.
  - intros results items -> Hhas Hiter. simpl. rewrite Hhas. simpl.
    rewrite Hiter. simpl. now rewrite collect_appends.
  - intros results -> Hhas. simpl. now rewrite Hhas.
  - now intros e ->.
Qed.

(** ** GitHubWrapper.__init__ *)

Lemma in_py_range (lo hi x : Z) :
  In x (GitHubWrapper.py_range lo hi) <-> (lo <= x < hi)%Z.
Proof.
  unfold GitHubWrapper.py_range. rewrite in_map_iff. split.
  - intros (i & <- & Hi). apply in_seq in Hi. lia.
  - intros Hx. exists (Z.to_nat (x - lo)). split; [lia|]. apply in_seq. lia.
Qed.

Lemma exempt_test (x : Z) (exempt : list Z) :
  negb (existsb (Z.eqb x) exempt) = true <-> ~ In x exempt.
Proof.
  rewrite negb_true_iff, <- not_true_iff_false, existsb_exists. split.
  - intros Hno Hin. apply Hno. exists x. split; [assumption | apply Z.eqb_refl].
  - intros Hno (y & Hy & Heq). apply Z.eqb_eq in Heq as <-. contradiction.
Qed.

(** The codes of [400,600) outside the [exempt] list: what the
    comprehension gives to [GithubRetry]. *)
Lemma retried_codes (x : Z) (exempt : list Z) :
  In x (List.filter (fun x => negb (existsb (Z.eqb x) exempt))
          (GitHubWrapper.py_range 400 600))
  <-> (400 <= x < 600)%Z /\ ~ In x exempt.
Proof. rewrite filter_In, in_py_range, exempt_test. tauto. Qed.

(** What [retry_config] builds, in terms of the list that the [or] picks:
    the constructor has added 403. *)
Lemma retry_config_made (retries : Z) (codes : option (list Z)) :
  (0 < retries)%Z ->
  exists cfg,
    GitHubWrapper.retry_config retries codes = Some cfg /\
    GitHubWrapper.total cfg = retries /\
    GitHubWrapper.backoff_factor cfg = 1%Z /\
    forall x, In x (GitHubWrapper.status_forcelist cfg) <->
              ((400 <= x < 600)%Z /\ ~ In x (GitHubWrapper.exempt_or_default codes))
              \/ x = 403%Z.
Proof.
  intros Hpos. unfold GitHubWrapper.retry_config.
  rewrite (proj2 (Z.gtb_gt retries 0)) by lia.
  eexists. split; [reflexivity|]. split; [reflexivity|]. split; [reflexivity|].
  intros x. unfold GitHubWrapper.GithubRetry_init. cbn [GitHubWrapper.status_forcelist].
  rewrite in_app_iff, retried_codes. cbn [In]. intuition congruence.
Qed.

(** C7, as the code has it.  With a retry count above 0 the code makes
    a retry configuration with that total and backoff factor 1, and
    gives it to the client.  Its status list holds exactly the codes of
    [400,600) outside the exempt list, and 403, which [GithubRetry] adds
    to every list; the exempt list is the caller's when it is not empty
    and [400, 401, 403, 404, 422] when the caller gives none or an empty
    one.  With a retry count of 0 (or below) there is no retry
    configuration. *)
Theorem retry_policy (token : string) (url : option string) (retries : Z)
    (codes : option (list Z)) :
  retry_of (GitHubWrapper.__init__ token url retries codes)
  = GitHubWrapper.retry_config retries codes
  /\ ((0 < retries)%Z ->
      exists cfg,
        GitHubWrapper.retry_config retries codes = Some cfg /\
        GitHubWrapper.total cfg = retries /\
        GitHubWrapper.backoff_factor cfg = 1%Z /\
        (forall code more, codes = Some (code :: more) ->
           forall x, In x (GitHubWrapper.status_forcelist cfg) <->
                     ((400 <= x < 600)%Z /\ ~ In x (code :: more)) \/ x = 403%Z) /\
        (codes = None \/ codes = Some [] ->
           forall x, In x (GitHubWrapper.status_forcelist cfg) <->
                     ((400 <= x < 600)%Z /\ ~ In x [400; 401; 403; 404; 422]%Z)
                     \/ x = 403%Z))
  /\ ((retries <= 0)%Z -> GitHubWrapper.retry_config retries codes = None).
Proof.
  split; [reflexivity|]. split.
  - intros Hpos. destruct (retry_config_made retries codes Hpos)
      as (cfg & Hcfg & Htotal & Hbackoff & Hlist).
    exists cfg. split; [assumption|]. split; [assumption|]. split; [assumption|].
    split.
    + intros code more ->. exact Hlist.
    + intros [-> | ->]; exact Hlist.
  - intros Hle. unfold GitHubWrapper.retry_config.
    destruct (Z.gtb_spec retries 0); [lia | reflexivity].
Qed.

(** C7, as the specification words it, fails twice.  With the default
    exempt set the status list holds 403, which is in that set: the
    constructor of [GithubRetry] has added it.  And, 403 apart, a caller
    that passes an empty exempt list still gets the default exemptions,
    so 400 is not in the status list although it is outside the caller's
    (empty) list. *)
Lemma retry_policy_counterexample :
  ~ (forall retries codes, (0 < retries)%Z ->
       exists cfg,
         GitHubWrapper.retry_config retries codes = Some cfg /\
         forall x, In x (GitHubWrapper.status_forcelist cfg) <->
                   (400 <= x < 600)%Z /\ ~ In x (spec_exempt codes))
  /\ ~ (forall retries codes, (0 < retries)%Z ->
       exists cfg,
         GitHubWrapper.retry_config retries codes = Some cfg /\
         forall x, In x (GitHubWrapper.status_forcelist cfg) <->
                   ((400 <= x < 600)%Z /\ ~ In x (spec_exempt codes)) \/ x = 403%Z).
Proof.
  split; intros Hclaim.
  - destruct (Hclaim 1%Z None ltac:(lia)) as (cfg & Hcfg & Hlist).
    destruct (retry_config_made 1 None ltac:(lia)) as (cfg' & Hcfg' & _ & _ & Hlist').
    rewrite Hcfg in Hcfg'. injection Hcfg' as <-.
    assert (Hin : In 403%Z (GitHubWrapper.status_forcelist cfg))
      by (apply Hlist'; now right).
    apply Hlist in Hin as [_ Hout]. apply Hout. simpl. tauto.
  - destruct (Hclaim 1%Z (Some []) ltac:(lia)) as (cfg & Hcfg & Hlist).
    destruct (retry_config_made 1 (Some []) ltac:(lia)) as (cfg' & Hcfg' & _ & _ & Hlist').
    rewrite Hcfg in Hcfg'. injection Hcfg' as <-.
    assert (Hin : In 400%Z (GitHubWrapper.status_forcelist cfg)).
    { apply Hlist. left. split; [lia | intros []]. }
    apply Hlist' in Hin as [[_ Hout]|Heq]; [|discriminate].
    apply Hout. simpl. now left.
Qed.

(** ** Context.issue *)

Lemma repo_shape (env : gmap string string) (r : pyval) :
  Context.repo env = Returns r ->
  exists owner name, r = PyDict [("owner", PyStr owner); ("repo", PyStr name)].
Proof.
  unfold Context.repo.
  destruct (str_split slash 1 _) as [|owner [|name [|extra pieces]]];
    try discriminate.
  intros [= <-]. eauto.
Qed.

(** [issue] is its three values, once [repo] has given the first two. *)
Lemma issue_from_number (self : Context.t) (env : gmap string string)
    (r number : pyval) :
  Context.repo env = Returns r ->
  Context.issue_number (Context.payload self) = Returns number ->
  exists d, Context.issue self env = Returns d /\
            py_getitem d "number" = Returns number /\
            py_getitem d "owner" = py_getitem r "owner" /\
            py_getitem d "repo" = py_getitem r "repo".
Proof.
  intros Hrepo Hnumber. unfold Context.issue. rewrite Hrepo, Hnumber.
  apply repo_shape in Hrepo as (owner & name & ->). simpl.
  eexists. split; [reflexivity|]. repeat split.
Qed.

(** The [or] chain on a document whose [issue] and [pull_request], when
    present, are objects. *)
Lemma issue_number_priority (entries : list (string * pyval)) :
  object_or_absent entries "issue" ->
  object_or_absent entries "pull_request" ->
  Context.issue_number (PyDict entries) =
  Returns (if truthy (number_under entries "issue")
           then number_under entries "issue"
           else if truthy (number_under entries "pull_request")
                then number_under entries "pull_request"
                else default (PyInt 0) (dict_lookup entries "number")).
Proof.
  unfold object_or_absent, Context.issue_number, number_under, py_or.
  intros Hissue Hpull. simpl.
  destruct (dict_lookup entries "issue") as [[]|]; simpl; try contradiction.
  - destruct (truthy (default PyNone _)); [reflexivity|].
    destruct (dict_lookup entries "pull_request") as [[]|]; simpl; try contradiction.
    + now destruct (truthy (default PyNone _)).
    + reflexivity.
  - destruct (dict_lookup entries "pull_request") as [[]|]; simpl; try contradiction.
    + now destruct (truthy (default PyNone _)).
    + reflexivity.
Qed.

(** C2, as the code has it.  Provided [repo] can be computed: when the
    payload has an [issue.number] that is truthy (not 0, not null, ...),
    the [number] of [issue] is that value, whatever [pull_request] and
    the top level hold; and in general the [number] is the first truthy
    one of [issue.number] and [pull_request.number], and when neither is
    truthy the top-level [number], which is 0 when the key is absent. *)
Theorem issue_number_resolution (self : Context.t) (env : gmap string string)
    (r : pyval) (Hrepo : Context.repo env = Returns r) :
  (forall number,
      has_issue_number (Context.payload self) number ->
      truthy number = true ->
      exists d, Context.issue self env = Returns d /\
                py_getitem d "number" = Returns number)
  /\ (forall entries,
      Context.payload self = PyDict entries ->
      object_or_absent entries "issue" ->
      object_or_absent entries "pull_request" ->
      exists d, Context.issue self env = Returns d /\
                py_getitem d "number" =
                Returns (if truthy (number_under entries "issue")
                         then number_under entries "issue"
                         else if truthy (number_under entries "pull_request")
                              then number_under entries "pull_request"
                              else default (PyInt 0) (dict_lookup entries "number"))).
Proof.
  split.
  - intros number (entries & issue_entries & Hpayload & Hissue & Hnumber) Htruthy.
    destruct (issue_from_number self env r number Hrepo) as (d & Hd & Hnum & _).
    + rewrite Hpayload. unfold Context.issue_number, py_or. simpl.
      rewrite Hissue. simpl. rewrite Hnumber. simpl. now rewrite Htruthy.
    + eauto.
  - intros entries Hpayload Hissue Hpull.
    destruct (issue_from_number self env r _ Hrepo
                (eq_trans (f_equal Context.issue_number Hpayload)
                          (issue_number_priority entries Hissue Hpull)))
      as (d & Hd & Hnum & _).
    eauto.
Qed.

(** With issue 5, pull request 7 and top-level 9, the number is 5. *)
Lemma issue_number_resolution_witness :
  Context.repo (<["GITHUB_REPOSITORY" := "octo/cat"]> ∅)
  = Returns (PyDict [("owner", PyStr "octo"); ("repo", PyStr "cat")]) /\
  exists d,
    Context.issue
      (bare_context (PyDict [("issue", PyDict [("number", PyInt 5)]);
                             ("pull_request", PyDict [("number", PyInt 7)]);
                             ("number", PyInt 9)]))
      (<["GITHUB_REPOSITORY" := "octo/cat"]> ∅) = Returns d /\
    py_getitem d "number" = Returns (PyInt 5).
Proof.
  assert (Hrepo : Context.repo (<["GITHUB_REPOSITORY" := "octo/cat"]> ∅)
                  = Returns (PyDict [("owner", PyStr "octo"); ("repo", PyStr "cat")]))
    by reflexivity.
  split; [exact Hrepo|].
  apply (issue_number_resolution _ _ _ Hrepo).
  - exists [("issue", PyDict [("number", PyInt 5)]);
            ("pull_request", PyDict [("number", PyInt 7)]);
            ("number", PyInt 9)], [("number", PyInt 5)].
    repeat split.
  - reflexivity.
Defined.

(** C2, as the specification words it, fails twice: an [issue.number] of
    0 is passed over for the [pull_request.number]; and with a
    GITHUB_REPOSITORY without a slash [issue] raises, so it has no
    [number] at all. *)
Lemma issue_number_counterexample :
  ~ (forall self env number r d,
       has_issue_number (Context.payload self) number ->
       Context.repo env = Returns r ->
       Context.issue self env = Returns d ->
       py_getitem d "number" = Returns number)
  /\ ~ (forall self env number,
       has_issue_number (Context.payload self) number ->
       exists d, Context.issue self env = Returns d /\
                 py_getitem d "number" = Returns number).
Proof.
  split.
  - intros Hclaim.
    specialize (Hclaim
      (bare_context (PyDict [("issue", PyDict [("number", PyInt 0)]);
                             ("pull_request", PyDict [("number", PyInt 7)])]))
      ∅ (PyInt 0)
      (PyDict [("owner", PyStr ""); ("repo", PyStr "")])
      (PyDict [("owner", PyStr ""); ("repo", PyStr ""); ("number", PyInt 7)])).
    assert (Hfalse : Returns (PyInt 7) = Returns (PyInt 0)).
    { apply Hclaim; [|reflexivity|reflexivity].
      exists [("issue", PyDict [("number", PyInt 0)]);
              ("pull_request", PyDict [("number", PyInt 7)])], [("number", PyInt 0)].
      repeat split. }
    discriminate.
  - intros Hclaim.
    destruct (Hclaim
      (bare_context (PyDict [("issue", PyDict [("number", PyInt 5)])]))
      (<["GITHUB_REPOSITORY" := "octocat"]> ∅) (PyInt 5)) as (d & Hd & _).
    + exists [("issue", PyDict [("number", PyInt 5)])], [("number", PyInt 5)].
      repeat split.
    + vm_compute in Hd. discriminate.
Qed.

(** ** Core.set_output and Core.export_variable *)

(** Opening for appending what can be opened: the file is there
    afterwards, empty when it was not there. *)
Lemma open_append_ok (rt : PyRuntime) (fs : gmap string string) (path : string) :
  appendable rt path ->
  file_open_append rt fs path
  = Returns (match fs !! os_locate rt path with
             | Some _ => fs
             | None => <[os_locate rt path := ""]> fs
             end).
Proof.
  intros (Hpath & Hallowed & Hdir & Hdevice). apply str_truthy_true in Hpath.
  unfold file_open_append. now rewrite Hpath, Hallowed, Hdir, Hdevice.
Qed.


(** Opening changes no text. *)
Lemma opened_text (rt : PyRuntime) (fs : gmap string string) (path file : string) :
  default "" (match fs !! os_locate rt path with
              | Some _ => fs
              | None => <[os_locate rt path := ""]> fs
              end !! file)
  = default "" (fs !! file).
Proof.
  destruct (fs !! os_locate rt path) as [old|] eqn:Hold; [reflexivity|].
  destruct (decide (file = os_locate rt path)) as [->|Hne].
  - now rewrite lookup_insert_eq, Hold.
  - now rewrite lookup_insert_ne by congruence.
Qed.











(** In the demo runtime the paths of the examples can be opened. *)
Lemma demo_appendable_out : appendable Demo.runtime "/out".
Proof. repeat split; discriminate. Qed.




(** ** run_script *)

(** A line changes the binding of its target only. *)
Lemma exec_line_frame (globals globals' : gmap string pyval) (line name : string) :
  MiniPython.exec_line globals line = Some globals' ->
  MiniPython.target line <> Some name ->
  globals' !! name = globals !! name.
Proof.
  unfold MiniPython.exec_line, MiniPython.target.
  destruct line as [|c rest]; [now intros [= <-]|].
  destruct (Ascii.eqb c " "); [discriminate|].
  destruct (MiniPython.lex MiniPython.NoToken (String c rest)) as [tokens|];
    [|discriminate].
  cbn [mbind option_bind].
  destruct (MiniPython.max_tokens <? length tokens)%nat; [discriminate|].
  destruct tokens as [|[x| | |] [|[| | |] [|t more]]]; try discriminate.
  intros Hrun Htarget.
  assert (Hx : x <> name) by congruence.
  destruct more as [|t' more].
  - destruct (MiniPython.term_value globals t) as [v|]; [|discriminate].
    injection Hrun as <-. now rewrite lookup_insert_ne.
  - destruct (MiniPython.term_int globals t) as [z|]; [|discriminate].
    change (MiniPython.eval_sum globals z (t' :: more)
              ≫= (fun sum => Some (<[x := PyInt sum]> globals)) = Some globals') in Hrun.
    destruct (MiniPython.eval_sum globals z (t' :: more)) as [sum|]; [|discriminate].
    injection Hrun as <-. now rewrite lookup_insert_ne.
Qed.

Lemma exec_lines_frame (lines : list string) (name : string) :
  forall globals globals',
    MiniPython.exec_lines globals lines = Some globals' ->
    Forall (fun line => MiniPython.target line <> Some name) lines ->
    globals' !! name = globals !! name.
Proof.
  induction lines as [|line rest IH]; intros globals globals' Hrun Hnever.
  - simpl in Hrun. now injection Hrun as <-.
  - simpl in Hrun. inversion Hnever as [|? ? Hline Hrest]; subst.
    destruct (MiniPython.exec_line globals line) as [after|] eqn:Hafter;
      [|discriminate].
    simpl in Hrun. rewrite (IH _ _ Hrun Hrest).
    now apply (exec_line_frame _ _ line).
Qed.

(** A script of the fragment that never assigns a name leaves it as it
    was, unbound if it was unbound. *)
Lemma exec_never_sets (source name : string) (globals globals' : gmap string pyval) :
  name <> "__builtins__" ->
  MiniPython.exec source globals = Some globals' ->
  MiniPython.never_sets name source ->
  globals' !! name = globals !! name.
Proof.
  unfold MiniPython.exec, MiniPython.never_sets. intros Hname Hrun Hnever.
  rewrite (exec_lines_frame _ _ _ _ Hrun Hnever).
  unfold MiniPython.with_builtins.
  destruct (globals !! "__builtins__"); [reflexivity|].
  now rewrite lookup_insert_ne by congruence.
Qed.

Lemma demo_exec_conforms : exec_conforms Demo.runtime.
Proof.
  intros source globals globals' Hrun. simpl. unfold Demo.exec. now rewrite Hrun.
Qed.

(** What the reference semantics makes of [__result__ = 1 + 1]. *)
Lemma one_plus_one (globals : gmap string pyval) :
  MiniPython.exec "__result__ = 1 + 1" globals
  = Some (<["__result__" := PyInt 2]> (MiniPython.with_builtins globals)).
Proof. reflexivity. Qed.

(** C1.  The script runs against globals that bind [github], [context],
    [core], [os], [sys] and [json] (and no [__result__]).  When it has
    run, [run_script] returns what [__result__] is then bound to, and
    [None] when it is not bound.  What the script raises, [run_script]
    raises, and a script that does not finish keeps [run_script] from
    finishing.  With an [exec] that follows the reference semantics on
    the fragment, a script of the fragment gives what its last
    assignment to [__result__] gave, [None] when it has no such
    assignment, and 2 for [__result__ = 1 + 1]. *)
Theorem run_script_result (rt : PyRuntime) (script : string)
    (github context core : pyval) :
  (exec_globals github context core !! "github" = Some github /\
   exec_globals github context core !! "context" = Some context /\
   exec_globals github context core !! "core" = Some core /\
   is_Some (exec_globals github context core !! "os") /\
   is_Some (exec_globals github context core !! "sys") /\
   is_Some (exec_globals github context core !! "json") /\
   exec_globals github context core !! "__result__" = None)
  /\ (forall after result,
      py_exec rt script (exec_globals github context core) = Returns after ->
      after !! "__result__" = Some result ->
      run_script rt script github context core = Returns result)
  /\ (forall after,
      py_exec rt script (exec_globals github context core) = Returns after ->
      after !! "__result__" = None ->
      run_script rt script github context core = Returns PyNone)
  /\ (forall e,
      py_exec rt script (exec_globals github context core) = Raises e ->
      run_script rt script github context core = Raises e)
  /\ (py_exec rt script (exec_globals github context core) = Diverges ->
      run_script rt script github context core = Diverges)
  /\ (exec_conforms rt ->
      (forall after,
          MiniPython.exec script (exec_globals github context core) = Some after ->
          run_script rt script github context core
          = Returns (default PyNone (after !! "__result__")))
      /\ (forall after,
          MiniPython.exec script (exec_globals github context core) = Some after ->
          MiniPython.never_sets "__result__" script ->
          run_script rt script github context core = Returns PyNone)
      /\ run_script rt "__result__ = 1 + 1" github context core = Returns (PyInt 2)).
Proof.
  assert (Hfresh : exec_globals github context core !! "__result__" = None)
    by reflexivity.
  split; [|split; [|split; [|split; [|split]]]].
  - repeat split; try reflexivity; eexists; reflexivity.
  - intros after result Hrun Hresult. unfold run_script. rewrite Hrun. simpl.
    now rewrite Hresult.
  - intros after Hrun Hresult. unfold run_script. rewrite Hrun. simpl.
    now rewrite Hresult.
  - intros e Hrun. unfold run_script. now rewrite Hrun.
  - intros Hrun. unfold run_script. now rewrite Hrun.
  - intros Hexec. split; [|split].
    + intros after Hrun. unfold run_script. now rewrite (Hexec _ _ _ Hrun).
    + intros after Hrun Hnever. unfold run_script. rewrite (Hexec _ _ _ Hrun). simpl.
      rewrite (exec_never_sets _ "__result__" _ _ ltac:(discriminate) Hrun Hnever).
      now rewrite Hfresh.
    + unfold run_script. rewrite (Hexec _ _ _ (one_plus_one _)). simpl.
      now rewrite lookup_insert_eq.
Qed.

(** The demo runtime conforms, and gives 2 for [__result__ = 1 + 1]. *)
Lemma run_script_result_witness :
  exec_conforms Demo.runtime /\
  run_script Demo.runtime "__result__ = 1 + 1"
    (PyObj "GitHubWrapper" []) (PyObj "Context" []) (PyObj "Core" [])
  = Returns (PyInt 2).
Proof.
  split; [exact demo_exec_conforms|].
  apply (run_script_result Demo.runtime "__result__ = 1 + 1"
           (PyObj "GitHubWrapper" []) (PyObj "Context" []) (PyObj "Core" [])).
  exact demo_exec_conforms.
Defined.

(** ** The model run on examples *)

Example get_input_dashes :
  Core.get_input Demo.runtime (<["INPUT_RETRY_COUNT" := "3"]> ∅) "retry-count" true
  = Returns "3".
Proof. reflexivity. Qed.

Example get_input_missing :
  Core.get_input Demo.runtime ∅ "retry-count" true
  = Raises (ValueError "Input required and not supplied: retry-count").
Proof. reflexivity. Qed.

Example get_input_optional :
  Core.get_input Demo.runtime ∅ "retry-count" false = Returns "".
Proof. reflexivity. Qed.

Example get_input_unencodable :
  Core.get_input Demo.runtime ∅ Demo.surrogate false = Raises Demo.encode_error.
Proof. reflexivity. Qed.

Example set_failed_exits :
  Core.set_failed Demo.runtime "" "boom"
  = (Raises (SystemExit 1), "::error::boom" +:+ String newline "").
Proof. reflexivity. Qed.

Example set_failed_unencodable :
  Core.set_failed Demo.runtime "" Demo.surrogate = (Raises Demo.encode_error, "").
Proof. reflexivity. Qed.

Example repo_keeps_later_slashes :
  Context.repo (<["GITHUB_REPOSITORY" := "octo/cat/tail"]> ∅)
  = Returns (PyDict [("owner", PyStr "octo"); ("repo", PyStr "cat/tail")]).
Proof. reflexivity. Qed.

Example repo_without_slash :
  Context.repo (<["GITHUB_REPOSITORY" := "octocat"]> ∅)
  = Raises (ValueError "not enough values to unpack (expected 2, got 1)").
Proof. reflexivity. Qed.

Example issue_falls_back_to_pull_request :
  Context.issue_number (PyDict [("pull_request", PyDict [("number", PyInt 7)]);
                                ("number", PyInt 9)])
  = Returns (PyInt 7).
Proof. reflexivity. Qed.

Example issue_falls_back_to_zero :
  Context.issue_number (PyDict [("action", PyStr "opened")]) = Returns (PyInt 0).
Proof. reflexivity. Qed.

Example issue_null_is_not_an_object :
  Context.issue_number (PyDict [("issue", PyNone)]) = Raises (AttributeError "get").
Proof. reflexivity. Qed.

Example payload_of_missing_file :
  Context._load_payload Demo.runtime (<["GITHUB_EVENT_PATH" := "/event.json"]> ∅) ∅
  = Returns (PyDict []).
Proof. reflexivity. Qed.

Example payload_of_file :
  Context._load_payload Demo.runtime (<["GITHUB_EVENT_PATH" := "/event.json"]> ∅)
    (<["/event.json" := "41"]> ∅)
  = Returns (PyInt 41).
Proof. reflexivity. Qed.

Example set_output_appends :
  snd (Core.set_output Demo.runtime (<["GITHUB_OUTPUT" := "/out"]> ∅)
         (<["/out" := "a=1" +:+ String newline ""]> ∅) "total" (PyInt 12)) !! "/out"
  = Some ("a=1" +:+ String newline "" +:+ "total=12" +:+ String newline "").
Proof. reflexivity. Qed.

Example export_variable_creates :
  snd (Core.export_variable Demo.runtime (<["GITHUB_ENV" := "/env"]> ∅) ∅
         "MODE" (PyStr "fast")) !! "/env"
  = Some ("MODE=fast" +:+ String newline "").
Proof. reflexivity. Qed.

Example set_output_to_directory :
  Core.set_output Demo.runtime (<["GITHUB_OUTPUT" := "/"]> ∅) ∅ "k" (PyStr "v")
  = (Raises (OSError "IsADirectoryError"), ∅).
Proof. reflexivity. Qed.

Example set_output_to_null_device :
  Core.set_output Demo.runtime (<["GITHUB_OUTPUT" := "/dev/null"]> ∅) ∅ "k" (PyStr "v")
  = (Returns tt, ∅).
Proof. reflexivity. Qed.

Example paginate_list :
  GitHubWrapper.paginate Demo.runtime
    (fun _ : unit =>
       Returns (PyObj "PaginatedList"
                  [("totalCount", PyInt 2); ("items", PyList [PyInt 10; PyInt 20])]))
    tt
  = Returns [PyInt 10; PyInt 20].
Proof. reflexivity. Qed.

Example paginate_single :
  GitHubWrapper.paginate Demo.runtime
    (fun _ : unit => Returns (PyObj "Repository" [("name", PyStr "cat")])) tt
  = Returns [PyObj "Repository" [("name", PyStr "cat")]].
Proof. reflexivity. Qed.

Example retry_default_exempt :
  option_map GitHubWrapper.status_forcelist (GitHubWrapper.retry_config 2 None)
  = Some (List.filter (fun x => negb (existsb (Z.eqb x) [400; 401; 403; 404; 422]%Z))
            (GitHubWrapper.py_range 400 600) ++ [403%Z])%list.
Proof. reflexivity. Qed.

Example retry_none_by_default :
  retry_of (GitHubWrapper.__init__ "token" None 0 None) = None.
Proof. reflexivity. Qed.

Example run_script_two_lines :
  run_script Demo.runtime ("x = 12" +:+ String newline "__result__ = x + 30")
    PyNone PyNone PyNone
  = Returns (PyInt 42).
Proof. reflexivity. Qed.

Example run_script_no_result :
  run_script Demo.runtime "x = 12" PyNone PyNone PyNone = Returns PyNone.
Proof. reflexivity. Qed.

(** * Further properties of the module *)

(** ** The printing functions *)

(** What [print] leaves. *)
Lemma py_print_ok (rt : PyRuntime) (stdout text : string) :
  stdout_refuses rt text = None ->
  py_print rt stdout text = (Returns tt, stdout +:+ text +:+ String newline "").
Proof. unfold py_print. now intros ->. Qed.

Lemma py_print_refused (rt : PyRuntime) (stdout text : string) (e : pyexn) :
  stdout_refuses rt text = Some e -> py_print rt stdout text = (Raises e, stdout).
Proof. unfold py_print. now intros ->. Qed.

(** X1. Messages that standard output can encode are written as they
    are.  A newline inside a message ends the line, and what follows it
    is a line of its own, read like the output of a further call: a debug
    message can carry an error annotation, an informational message a
    second one or a mask command.  [set_failed] leaves the output of
    [error] and raises SystemExit(1); when the text cannot be printed,
    nothing is printed and [set_failed] raises what [print] raises, not
    SystemExit. *)
Theorem printers_write_verbatim (rt : PyRuntime) (stdout a b : string) :
  (stdout_refuses rt ("::debug::" +:+ a +:+ String newline ("::error::" +:+ b)) = None ->
   stdout_refuses rt ("::debug::" +:+ a) = None ->
   stdout_refuses rt ("::error::" +:+ b) = None ->
   Core.debug rt stdout (a +:+ String newline ("::error::" +:+ b))
   = Core.error rt (snd (Core.debug rt stdout a)) b)
  /\ (stdout_refuses rt ("::warning::" +:+ a +:+ String newline ("::error::" +:+ b)) = None ->
      stdout_refuses rt ("::warning::" +:+ a) = None ->
      stdout_refuses rt ("::error::" +:+ b) = None ->
      Core.warning rt stdout (a +:+ String newline ("::error::" +:+ b))
      = Core.error rt (snd (Core.warning rt stdout a)) b)
  /\ (stdout_refuses rt (a +:+ String newline b) = None ->
      stdout_refuses rt a = None ->
      stdout_refuses rt b = None ->
      Core.info rt stdout (a +:+ String newline b)
      = Core.info rt (snd (Core.info rt stdout a)) b)
  /\ (stdout_refuses rt ("::error::" +:+ a +:+ String newline b) = None ->
      stdout_refuses rt ("::error::" +:+ a) = None ->
      stdout_refuses rt b = None ->
      Core.error rt stdout (a +:+ String newline b)
      = Core.info rt (snd (Core.error rt stdout a)) b)
  /\ Core.info rt stdout ("::add-mask::" +:+ a) = Core.set_secret rt stdout a
  /\ (stdout_refuses rt ("::error::" +:+ a) = None ->
      Core.error rt stdout a
      = (Returns tt, stdout +:+ "::error::" +:+ a +:+ String newline "") /\
      Core.set_failed rt stdout a
      = (Raises (SystemExit 1), stdout +:+ "::error::" +:+ a +:+ String newline ""))
  /\ (forall e, stdout_refuses rt ("::error::" +:+ a) = Some e ->
      Core.error rt stdout a = (Raises e, stdout) /\
      Core.set_failed rt stdout a = (Raises e, stdout)).
Proof.
  unfold Core.debug, Core.warning, Core.error, Core.info, Core.set_secret,
    Core.set_failed.
  split; [|split; [|split; [|split; [|split; [|split]]]]].
  - intros Hboth Ha Hb.
    rewrite (py_print_ok _ _ _ Hboth), (py_print_ok _ _ _ Ha). cbn [snd].
    rewrite (py_print_ok _ _ _ Hb). f_equal. str_norm. reflexivity.
  - intros Hboth Ha Hb.
    rewrite (py_print_ok _ _ _ Hboth), (py_print_ok _ _ _ Ha). cbn [snd].
    rewrite (py_print_ok _ _ _ Hb). f_equal. str_norm. reflexivity.
  - intros Hboth Ha Hb.
    rewrite (py_print_ok _ _ _ Hboth), (py_print_ok _ _ _ Ha). cbn [snd].
    rewrite (py_print_ok _ _ _ Hb). f_equal. str_norm. reflexivity.
  - intros Hboth Ha Hb.
    rewrite (py_print_ok _ _ _ Hboth), (py_print_ok _ _ _ Ha). cbn [snd].
    rewrite (py_print_ok _ _ _ Hb). f_equal. str_norm. reflexivity.
  - reflexivity.
  - intros Ha. rewrite (py_print_ok _ _ _ Ha). split; reflexivity.
  - intros e Ha. rewrite (py_print_refused _ _ _ _ Ha). split; reflexivity.
Qed.

(** ** More on set_output and export_variable *)





(** When both variables name one file, the order of the calls shows. *)
Example one_file_for_both :
  Core.export_variable Demo.runtime
    (<["GITHUB_OUTPUT" := "/out"]> (<["GITHUB_ENV" := "/out"]> ∅))
    (snd (Core.set_output Demo.runtime
            (<["GITHUB_OUTPUT" := "/out"]> (<["GITHUB_ENV" := "/out"]> ∅)) ∅
            "a" (PyInt 1))) "B" (PyStr "two")
  <> Core.set_output Demo.runtime
       (<["GITHUB_OUTPUT" := "/out"]> (<["GITHUB_ENV" := "/out"]> ∅))
       (snd (Core.export_variable Demo.runtime
               (<["GITHUB_OUTPUT" := "/out"]> (<["GITHUB_ENV" := "/out"]> ∅)) ∅
               "B" (PyStr "two"))) "a" (PyInt 1).
Proof.
  intros Hsame.
  apply (f_equal (fun result => snd result !! "/out")) in Hsame.
  vm_compute in Hsame. discriminate.
Qed.

(** X4. A value that cannot be formatted costs no text: when the output
    file can be opened, the call raises what [format] raised, every file
    reads as before, and the output file exists afterwards (empty, when
    it was not there), because the file is opened before the line is
    built. *)
Theorem set_output_format_failure (rt : PyRuntime) (env fs : gmap string string)
    (name : string) (value : pyval) (path : string) (e : pyexn)
    (Henv : env !! "GITHUB_OUTPUT" = Some path) (Hopen : appendable rt path)
    (Hformat : py_format rt value = Raises e) :
  exists fs1,
    Core.set_output rt env fs name value = (Raises e, fs1) /\
    (forall file, file_text rt fs1 file = file_text rt fs file) /\
    (forall file text, fs !! file = Some text -> fs1 !! file = Some text) /\
    is_Some (fs1 !! os_locate rt path).
Proof.
  unfold Core.set_output.
  rewrite Henv, (proj2 (str_truthy_true path) (proj1 Hopen)).
  rewrite (open_append_ok _ _ _ Hopen), Hformat.
  eexists. split; [reflexivity|]. split; [|split].
  - intros file. unfold file_text. apply opened_text.
  - intros file text Hfile.
    destruct (fs !! os_locate rt path) as [old|] eqn:Hold; [assumption|].
    rewrite lookup_insert_ne; [assumption|congruence].
  - destruct (fs !! os_locate rt path) as [old|] eqn:Hold; [now rewrite Hold|].
    rewrite lookup_insert_eq. eauto.
Qed.

(** Python does not turn an integer of more than 4300 digits into text:
    an output with such a value raises ValueError, and leaves the output
    file empty. *)
Lemma set_output_format_failure_witness :
  exists msg fs1,
    Core.set_output Demo.runtime (<["GITHUB_OUTPUT" := "/out"]> ∅)
      (<["/other" := "kept"]> ∅) "a" (PyInt Demo.int_str_limit)
    = (Raises (ValueError msg), fs1) /\
    fs1 !! "/other" = Some "kept" /\ is_Some (fs1 !! "/out").
Proof.
  assert (Henv : (<["GITHUB_OUTPUT" := "/out"]> ∅ : gmap string string)
                 !! "GITHUB_OUTPUT" = Some "/out") by reflexivity.
  pose proof demo_appendable_out as Hopen.
  assert (Hformat : py_format Demo.runtime (PyInt Demo.int_str_limit)
                    = Raises (ValueError
                        "Exceeds the limit (4300 digits) for integer string conversion"))
    by (vm_compute; reflexivity).
  destruct (set_output_format_failure Demo.runtime (<["GITHUB_OUTPUT" := "/out"]> ∅)
              (<["/other" := "kept"]> ∅) "a" (PyInt Demo.int_str_limit) "/out" _
              Henv Hopen Hformat)
    as (fs1 & Hrun & _ & Hkept & Hfile).
  eexists. exists fs1. split; [exact Hrun|]. split; [|exact Hfile].
  apply Hkept. reflexivity.
Defined.



(** ** More on get_input *)

Lemma str_replace_again (old new : ascii) (s : string) :
  old <> new -> str_replace old new (str_replace old new s) = str_replace old new s.
Proof.
  intros Hne. induction s as [|c rest IH]; simpl; [reflexivity|].
  rewrite IH. f_equal.
  destruct (Ascii.eqb_spec c old) as [->|Hc].
  - now destruct (Ascii.eqb_spec new old); [congruence|].
  - now destruct (Ascii.eqb_spec c old).
Qed.

(** [get_input] looks at the name through its key only, but for the text
    of the error. *)
Lemma get_input_by_key (rt : PyRuntime) (env : gmap string string)
    (name1 name2 : string) (required : bool) (v : string) :
  Core.input_key rt name1 = Core.input_key rt name2 ->
  Core.get_input rt env name1 required = Returns v ->
  Core.get_input rt env name2 required = Returns v.
Proof.
  unfold Core.get_input. intros ->.
  destruct (environ_refuses rt (Core.input_key rt name2)); [trivial|].
  now destruct (required && negb (str_truthy (getenv_or env (Core.input_key rt name2) ""))).
Qed.

(** X6. Input names are matched without regard to case, and with dashes
    and underscores taken as the same, for an [upper] that leaves dashes
    and underscores alone and changes nothing at a second application:
    the variant names read the same variable and return the same value. *)
Theorem get_input_name_variants (rt : PyRuntime) (env : gmap string string)
    (name : string) (required : bool)
    (Hdash : forall s, str_upper rt (str_replace "-"%char "_"%char s)
                       = str_replace "-"%char "_"%char (str_upper rt s))
    (Hagain : forall s, str_upper rt (str_upper rt s) = str_upper rt s) :
  Core.input_key rt (str_replace "-"%char "_"%char name) = Core.input_key rt name
  /\ Core.input_key rt (str_upper rt name) = Core.input_key rt name
  /\ (forall v,
      Core.get_input rt env (str_replace "-"%char "_"%char name) required = Returns v
      <-> Core.get_input rt env name required = Returns v)
  /\ (forall v,
      Core.get_input rt env (str_upper rt name) required = Returns v
      <-> Core.get_input rt env name required = Returns v).
Proof.
  assert (Hkey1 : Core.input_key rt (str_replace "-"%char "_"%char name)
                  = Core.input_key rt name).
  { unfold Core.input_key. now rewrite Hdash, str_replace_again. }
  assert (Hkey2 : Core.input_key rt (str_upper rt name) = Core.input_key rt name).
  { unfold Core.input_key. now rewrite Hagain. }
  split; [exact Hkey1|]. split; [exact Hkey2|].
  split; intros v; split; apply get_input_by_key; congruence.
Qed.

Lemma demo_upper_char_dash (c : ascii) :
  Demo.upper_char (if Ascii.eqb c "-" then "_"%char else c)
  = (if Ascii.eqb (Demo.upper_char c) "-" then "_"%char else Demo.upper_char c).
Proof. destruct c as [[] [] [] [] [] [] [] []]; reflexivity. Qed.

Lemma demo_upper_char_again (c : ascii) :
  Demo.upper_char (Demo.upper_char c) = Demo.upper_char c.
Proof. destruct c as [[] [] [] [] [] [] [] []]; reflexivity. Qed.

Lemma demo_upper_dash (s : string) :
  Demo.upper (str_replace "-"%char "_"%char s)
  = str_replace "-"%char "_"%char (Demo.upper s).
Proof.
  induction s as [|c rest IH]; [reflexivity|].
  cbn [str_replace Demo.upper]. now rewrite IH, demo_upper_char_dash.
Qed.

Lemma demo_upper_again (s : string) : Demo.upper (Demo.upper s) = Demo.upper s.
Proof.
  induction s as [|c rest IH]; [reflexivity|].
  cbn [Demo.upper]. now rewrite IH, demo_upper_char_again.
Qed.

Lemma get_input_name_variants_witness :
  Core.input_key Demo.runtime (str_replace "-"%char "_"%char "retry-count")
  = Core.input_key Demo.runtime "retry-count"
  /\ Core.input_key Demo.runtime (str_upper Demo.runtime "retry-count")
     = Core.input_key Demo.runtime "retry-count".
Proof.
  destruct (get_input_name_variants Demo.runtime ∅ "retry-count" false
              demo_upper_dash demo_upper_again) as (Hkey1 & Hkey2 & _).
  split; [exact Hkey1 | exact Hkey2].
Defined.

(** ** More on Context *)

(** A text with a separator, cut at the first one. *)
Lemma str_contains_cut (sep : ascii) (s : string) :
  str_contains sep s = true ->
  exists before after,
    s = before +:+ String sep after /\ str_contains sep before = false.
Proof.
  induction s as [|c rest IH]; simpl; [discriminate|].
  destruct (Ascii.eqb_spec c sep) as [->|Hne]; simpl.
  - intros _. exists "", rest. now split.
  - intros Hrest. destruct (IH Hrest) as (before & after & -> & Hfree).
    exists (String c before), after. split; [reflexivity|].
    simpl. rewrite Hfree. now destruct (Ascii.eqb_spec c sep).
Qed.

(** X7. [repo] raises exactly when the repository text has no slash, and
    then it is the ValueError of the two-name unpacking.  So a
    GITHUB_REPOSITORY that is set to the empty text is an error, though
    an unset one is not. *)
Theorem repo_fails_without_slash (env : gmap string string) :
  ((exists e, Context.repo env = Raises e)
   <-> str_contains slash (getenv_or env "GITHUB_REPOSITORY" "/") = false)
  /\ (forall e, Context.repo env = Raises e ->
      e = ValueError "not enough values to unpack (expected 2, got 1)")
  /\ Context.repo env <> Diverges
  /\ (env !! "GITHUB_REPOSITORY" = Some "" ->
      Context.repo env
      = Raises (ValueError "not enough values to unpack (expected 2, got 1)")).
Proof.
  unfold Context.repo.
  destruct (str_contains slash (getenv_or env "GITHUB_REPOSITORY" "/")) eqn:Hslash.
  - destruct (str_contains_cut _ _ Hslash) as (before & after & Hcut & Hfree).
    rewrite Hcut, (str_split_once _ _ _ Hfree).
    split; [|split; [|split]].
    + split; [intros [e He]; discriminate | discriminate].
    + discriminate.
    + discriminate.
    + intros Hempty. unfold getenv_or in Hslash. rewrite Hempty in Hslash. discriminate.
  - rewrite (str_split_none _ _ _ Hslash).
    split; [|split; [|split]].
    + split; [reflexivity | eauto].
    + now intros e [= <-].
    + discriminate.
    + reflexivity.
Qed.

(** X8. What [repo] returns names the repository again: joined by a
    slash, owner and name are the text of GITHUB_REPOSITORY (or "/"), so
    [get_repo] and [rest.repos.get] on them ask the client for exactly
    that repository. *)
Theorem repo_names_the_repository (R : GitHubWrapper.Remote) (self : GitHubWrapper.t)
    (env : gmap string string) (owner name : string)
    (Hrepo : Context.repo env
             = Returns (PyDict [("owner", PyStr owner); ("repo", PyStr name)])) :
  owner +:+ "/" +:+ name = getenv_or env "GITHUB_REPOSITORY" "/"
  /\ (forall w,
      GitHubWrapper.get_repo R self owner name w
      = GitHubWrapper.perform R
          (GitHubWrapper.GetRepo (GitHubWrapper._github self)
             (getenv_or env "GITHUB_REPOSITORY" "/")) w)
  /\ (forall w,
      ReposAPI.get R (RestAPI.repos (rest self)) owner name w
      = GitHubWrapper.perform R
          (GitHubWrapper.GetRepo (GitHubWrapper._github self)
             (getenv_or env "GITHUB_REPOSITORY" "/")) w).
Proof.
  assert (Hjoin : owner +:+ "/" +:+ name = getenv_or env "GITHUB_REPOSITORY" "/").
  { unfold Context.repo in Hrepo.
    destruct (str_split slash 1 (getenv_or env "GITHUB_REPOSITORY" "/"))
      as [|o [|n [|extra pieces]]] eqn:Hsplit; try discriminate.
    injection Hrepo as -> ->.
    now destruct (str_split_once_inv _ _ _ _ Hsplit) as [-> _]. }
  split; [exact Hjoin|]. split; intros w.
  - unfold GitHubWrapper.get_repo, GitHubWrapper.request. now rewrite Hjoin.
  - unfold ReposAPI.get, GitHubWrapper.request. simpl. now rewrite Hjoin.
Qed.

Lemma repo_names_the_repository_witness :
  "octo" +:+ "/" +:+ "cat/tail"
  = getenv_or (<["GITHUB_REPOSITORY" := "octo/cat/tail"]> ∅) "GITHUB_REPOSITORY" "/".
Proof.
  assert (Hrepo : Context.repo (<["GITHUB_REPOSITORY" := "octo/cat/tail"]> ∅)
                  = Returns (PyDict [("owner", PyStr "octo"); ("repo", PyStr "cat/tail")]))
    by reflexivity.
  exact (proj1 (repo_names_the_repository
                  {| GitHubWrapper.world := unit;
                     GitHubWrapper.perform := fun _ w => (Returns PyNone, w) |}
                  (GitHubWrapper.__init__ "token" None 0 None) _ _ _ Hrepo)).
Defined.

(** X9. Construction fails at the first thing that fails, in the order
    payload, run number, run id: a payload that cannot be loaded decides
    the error whatever the run numbers are, and a bad GITHUB_RUN_NUMBER
    decides it whatever GITHUB_RUN_ID is.  Construction succeeds exactly
    when all three succeed. *)
Theorem context_init_first_failure (rt : PyRuntime) (env fs : gmap string string) :
  (forall e, Context._load_payload rt env fs = Raises e ->
      Context.__init__ rt env fs = Raises e)
  /\ (forall p msg,
      Context._load_payload rt env fs = Returns p ->
      py_int rt (getenv_or env "GITHUB_RUN_NUMBER" "0") = inl msg ->
      Context.__init__ rt env fs = Raises (ValueError msg))
  /\ (forall p n msg,
      Context._load_payload rt env fs = Returns p ->
      py_int rt (getenv_or env "GITHUB_RUN_NUMBER" "0") = inr n ->
      py_int rt (getenv_or env "GITHUB_RUN_ID" "0") = inl msg ->
      Context.__init__ rt env fs = Raises (ValueError msg))
  /\ ((exists ctx, Context.__init__ rt env fs = Returns ctx)
      <-> (exists p, Context._load_payload rt env fs = Returns p)
          /\ (exists n, py_int rt (getenv_or env "GITHUB_RUN_NUMBER" "0") = inr n)
          /\ (exists m, py_int rt (getenv_or env "GITHUB_RUN_ID" "0") = inr m)).
Proof.
  unfold Context.__init__, parse_int. split; [|split; [|split]].
  - now intros e ->.
  - now intros p msg -> ->.
  - now intros p n msg -> -> ->.
  - destruct (Context._load_payload rt env fs) as [p|e|]; simpl.
    + destruct (py_int rt (getenv_or env "GITHUB_RUN_NUMBER" "0")) as [msg|n]; simpl.
      * split; [intros [ctx Hctx]; discriminate|].
        intros (_ & [n Hn] & _). discriminate.
      * destruct (py_int rt (getenv_or env "GITHUB_RUN_ID" "0")) as [msg|m]; simpl.
        -- split; [intros [ctx Hctx]; discriminate|].
           intros (_ & _ & [m Hm]). discriminate.
        -- split; [intros _; repeat split; eauto | intros _; eauto].
    + split; [intros [ctx Hctx]; discriminate|]. intros ([p Hp] & _). discriminate.
    + split; [intros [ctx Hctx]; discriminate|]. intros ([p Hp] & _). discriminate.
Qed.

(** X10. A context constructed without an event file (GITHUB_EVENT_PATH
    unset, or naming a path that does not exist) has an [issue] whose
    number is 0 and whose owner and repo are those of [repo]. *)
Theorem issue_without_event (rt : PyRuntime) (env fs : gmap string string)
    (ctx : Context.t) (r : pyval)
    (Hevent : env !! "GITHUB_EVENT_PATH" = None \/
              exists path, env !! "GITHUB_EVENT_PATH" = Some path /\
                           path_exists rt fs path = false)
    (Hctx : Context.__init__ rt env fs = Returns ctx)
    (Hrepo : Context.repo env = Returns r) :
  Context.payload ctx = PyDict []
  /\ exists owner name,
       r = PyDict [("owner", PyStr owner); ("repo", PyStr name)] /\
       Context.issue ctx env
       = Returns (PyDict [("owner", PyStr owner); ("repo", PyStr name);
                          ("number", PyInt 0)]).
Proof.
  assert (Hpayload : Context.payload ctx = PyDict []).
  { apply init_returns in Hctx. unfold Context._load_payload in Hctx.
    destruct Hevent as [Hnone | (path & Hsome & Hmissing)].
    - rewrite Hnone in Hctx. now injection Hctx.
    - rewrite Hsome, Hmissing, andb_false_r in Hctx. now injection Hctx. }
  split; [exact Hpayload|].
  destruct (repo_shape env r Hrepo) as (owner & name & ->).
  exists owner, name. split; [reflexivity|].
  unfold Context.issue. now rewrite Hrepo, Hpayload.
Qed.

Lemma issue_without_event_witness :
  Context.issue
    (bare_context (PyDict []))
    (<["GITHUB_REPOSITORY" := "octo/cat"]> ∅)
  = Returns (PyDict [("owner", PyStr "octo"); ("repo", PyStr "cat");
                     ("number", PyInt 0)]).
Proof.
  assert (Hunset : (<["GITHUB_REPOSITORY" := "octo/cat"]> ∅ : gmap string string)
                   !! "GITHUB_EVENT_PATH" = None) by reflexivity.
  assert (Hctx : Context.__init__ Demo.runtime (<["GITHUB_REPOSITORY" := "octo/cat"]> ∅) ∅
                 = Returns {| Context.payload := PyDict [];
                              Context.event_name := ""; Context.sha := "";
                              Context.ref := ""; Context.workflow := "";
                              Context.action := ""; Context.actor := "";
                              Context.job := ""; Context.run_number := 0;
                              Context.run_id := 0;
                              Context.api_url := "https://api.github.com";
                              Context.server_url := "https://github.com";
                              Context.graphql_url := "https://api.github.com/graphql" |})
    by reflexivity.
  assert (Hrepo : Context.repo (<["GITHUB_REPOSITORY" := "octo/cat"]> ∅)
                  = Returns (PyDict [("owner", PyStr "octo"); ("repo", PyStr "cat")]))
    by reflexivity.
  destruct (issue_without_event Demo.runtime _ ∅ _ _ (or_introl Hunset) Hctx Hrepo)
    as (_ & owner & name & Hshape & Hissue).
  injection Hshape as <- <-. exact Hissue.
Defined.

(** X11. [issue] fails before it gives a wrong answer.  What [repo]
    raises, [issue] raises, whatever the payload; and once [repo] has
    returned, a payload that is not an object, an [issue] entry that is
    not an object, and (when no truthy issue number hides it) a
    [pull_request] entry that is not an object each make it raise
    AttributeError. *)
Theorem issue_failures (self : Context.t) (env : gmap string string) :
  (forall e, Context.repo env = Raises e -> Context.issue self env = Raises e)
  /\ (forall r, Context.repo env = Returns r ->
      (forall entries, Context.payload self <> PyDict entries) ->
      Context.issue self env = Raises (AttributeError "get"))
  /\ (forall r entries v, Context.repo env = Returns r ->
      Context.payload self = PyDict entries ->
      dict_lookup entries "issue" = Some v ->
      (forall sub, v <> PyDict sub) ->
      Context.issue self env = Raises (AttributeError "get"))
  /\ (forall r entries v, Context.repo env = Returns r ->
      Context.payload self = PyDict entries ->
      object_or_absent entries "issue" ->
      truthy (number_under entries "issue") = false ->
      dict_lookup entries "pull_request" = Some v ->
      (forall sub, v <> PyDict sub) ->
      Context.issue self env = Raises (AttributeError "get")).
Proof.
  split; [|split; [|split]].
  - intros e Hrepo. unfold Context.issue. now rewrite Hrepo.
  - intros r Hrepo Hshape. unfold Context.issue. rewrite Hrepo.
    destruct (repo_shape env r Hrepo) as (owner & name & ->). simpl.
    destruct (Context.payload self); try reflexivity. now destruct (Hshape entries).
  - intros r entries v Hrepo Hpayload Hissue Hshape. unfold Context.issue.
    rewrite Hrepo, Hpayload.
    destruct (repo_shape env r Hrepo) as (owner & name & ->). simpl.
    unfold Context.issue_number. simpl. rewrite Hissue. simpl.
    destruct v; try reflexivity. now destruct (Hshape entries0).
  - intros r entries v Hrepo Hpayload Hissue Hfalsy Hpull Hshape. unfold Context.issue.
    rewrite Hrepo, Hpayload.
    destruct (repo_shape env r Hrepo) as (owner & name & ->). simpl.
    unfold Context.issue_number, py_or. simpl.
    unfold object_or_absent in Hissue. unfold number_under in Hfalsy.
    destruct (dict_lookup entries "issue") as [[]|]; simpl; try contradiction.
    + rewrite Hfalsy, Hpull. simpl. destruct v; try reflexivity.
      now destruct (Hshape entries1).
    + rewrite Hpull. simpl. destruct v; try reflexivity.
      now destruct (Hshape entries0).
Qed.

(** ** More on GitHubWrapper.__init__ *)

(** X12. What construction sets up is coherent: the wrapper and its
    client have the same base URL, which is the caller's unless that is
    absent or empty and is never empty; the client is authenticated
    exactly when the token is not empty; there is a retry configuration
    exactly when the retry count is positive; and the REST sub-clients
    hold the wrapper's own client. *)
Theorem wrapper_init_coherent (token : string) (url : option string) (retries : Z)
    (codes : option (list Z)) :
  GitHubWrapper.base_url (GitHubWrapper._github (GitHubWrapper.__init__ token url retries codes))
  = GitHubWrapper._base_url (GitHubWrapper.__init__ token url retries codes)
  /\ GitHubWrapper._base_url (GitHubWrapper.__init__ token url retries codes) <> ""
  /\ (forall u, url = Some u -> u <> "" ->
      GitHubWrapper._base_url (GitHubWrapper.__init__ token url retries codes) = u)
  /\ (url = None \/ url = Some "" ->
      GitHubWrapper._base_url (GitHubWrapper.__init__ token url retries codes)
      = "https://api.github.com")
  /\ (GitHubWrapper.auth (GitHubWrapper._github (GitHubWrapper.__init__ token url retries codes))
      = Some token <-> token <> "")
  /\ (GitHubWrapper.auth (GitHubWrapper._github (GitHubWrapper.__init__ token url retries codes))
      = None <-> token = "")
  /\ (retry_of (GitHubWrapper.__init__ token url retries codes) = None
      <-> (retries <= 0)%Z)
  /\ IssuesAPI._github (RestAPI.issues (rest (GitHubWrapper.__init__ token url retries codes)))
     = GitHubWrapper._github (GitHubWrapper.__init__ token url retries codes)
  /\ ReposAPI._github (RestAPI.repos (rest (GitHubWrapper.__init__ token url retries codes)))
     = GitHubWrapper._github (GitHubWrapper.__init__ token url retries codes)
  /\ PullsAPI._github (RestAPI.pulls (rest (GitHubWrapper.__init__ token url retries codes)))
     = GitHubWrapper._github (GitHubWrapper.__init__ token url retries codes).
Proof.
  unfold retry_of, rest, GitHubWrapper.__init__.
  cbn [GitHubWrapper._github GitHubWrapper._base_url GitHubWrapper.base_url
       GitHubWrapper.auth GitHubWrapper.retry RestAPI.__init__ RestAPI.issues
       RestAPI.repos RestAPI.pulls IssuesAPI.__init__ ReposAPI.__init__
       PullsAPI.__init__ IssuesAPI._github ReposAPI._github PullsAPI._github].
  split; [reflexivity|]. split; [|split; [|split; [|split; [|split; [|split]]]]].
  - unfold GitHubWrapper.or_default_url. destruct url as [u|]; [|discriminate].
    destruct (str_truthy u) eqn:Hu; [|discriminate]. now apply str_truthy_true.
  - intros u -> Hu. unfold GitHubWrapper.or_default_url.
    now rewrite (proj2 (str_truthy_true u) Hu).
  - now intros [-> | ->].
  - destruct (str_truthy token) eqn:Htoken.
    + apply str_truthy_true in Htoken. now split.
    + apply str_truthy_false in Htoken. split; [discriminate | congruence].
  - destruct (str_truthy token) eqn:Htoken.
    + apply str_truthy_true in Htoken. split; [discriminate | congruence].
    + apply str_truthy_false in Htoken. now split.
  - unfold GitHubWrapper.retry_config.
    destruct (Z.gtb_spec retries 0); split; try discriminate; try lia; reflexivity.
  - repeat split.
Qed.

Lemma py_range_from_sorted (lo : Z) (n a : nat) :
  StronglySorted Z.lt (map (fun i => (lo + Z.of_nat i)%Z) (seq a n)).
Proof.
  revert a. induction n as [|n IH]; intros a; simpl; constructor; [apply IH|].
  apply List.Forall_forall. intros x Hin.
  apply in_map_iff in Hin as (i & <- & Hi). apply in_seq in Hi. lia.
Qed.

Lemma filter_sorted (f : Z -> bool) (l : list Z) :
  StronglySorted Z.lt l -> StronglySorted Z.lt (List.filter f l).
Proof.
  induction 1 as [|a l Hsorted IH Hall]; simpl; [constructor|].
  destruct (f a); [|exact IH]. constructor; [exact IH|].
  apply List.Forall_forall. intros x Hin. apply filter_In in Hin as [Hin _].
  rewrite List.Forall_forall in Hall. now apply Hall.
Qed.

Lemma sorted_no_duplicates (l : list Z) : StronglySorted Z.lt l -> List.NoDup l.
Proof.
  induction 1 as [|a l Hsorted IH Hall]; constructor; [|exact IH].
  intros Hin. rewrite List.Forall_forall in Hall. specialize (Hall a Hin). lia.
Qed.

(** X13. The list of statuses to retry is a strictly increasing list
    of codes of [400,600), the ones outside the exempt list, followed by
    the 403 that [GithubRetry] adds.  So no status but 403 is named
    twice, 403 is named twice exactly when it is not exempt, and the list
    has at most 201 entries. *)
Theorem retry_statuses_increasing (retries : Z) (codes : option (list Z))
    (cfg : GitHubWrapper.GithubRetry)
    (Hcfg : GitHubWrapper.retry_config retries codes = Some cfg) :
  exists admitted,
    GitHubWrapper.status_forcelist cfg = (admitted ++ [403%Z])%list
    /\ StronglySorted Z.lt admitted
    /\ List.NoDup admitted
    /\ (forall x, In x admitted <->
                  (400 <= x < 600)%Z /\ ~ In x (GitHubWrapper.exempt_or_default codes))
    /\ (length admitted <= 200)%nat
    /\ (length (GitHubWrapper.status_forcelist cfg) <= 201)%nat.
Proof.
  unfold GitHubWrapper.retry_config in Hcfg.
  destruct (retries >? 0)%Z; [|discriminate].
  pose proof (f_equal (fun made => match made with
                                   | Some c => GitHubWrapper.status_forcelist c
                                   | None => []
                                   end) Hcfg) as Hlist.
  cbv beta iota in Hlist. unfold GitHubWrapper.GithubRetry_init in Hlist.
  cbn [GitHubWrapper.status_forcelist] in Hlist. clear Hcfg.
  assert (Hsorted : StronglySorted Z.lt
            (List.filter
               (fun x => negb (existsb (Z.eqb x) (GitHubWrapper.exempt_or_default codes)))
               (GitHubWrapper.py_range 400 600))).
  { apply filter_sorted. apply py_range_from_sorted. }
  assert (Hlength : (length
            (List.filter
               (fun x => negb (existsb (Z.eqb x) (GitHubWrapper.exempt_or_default codes)))
               (GitHubWrapper.py_range 400 600)) <= 200)%nat).
  { apply (Nat.le_trans _ (length (GitHubWrapper.py_range 400 600)));
      [apply filter_length_le|].
    unfold GitHubWrapper.py_range. rewrite length_map, length_seq. lia. }
  eexists. split; [symmetry; exact Hlist|].
  split; [exact Hsorted|]. split; [apply sorted_no_duplicates; exact Hsorted|].
  split; [intros x; apply retried_codes|]. split; [exact Hlength|].
  rewrite <- Hlist, length_app. cbn [length]. lia.
Qed.

Lemma retry_statuses_increasing_witness :
  exists cfg admitted,
    GitHubWrapper.retry_config 3 (Some [500; 404]%Z) = Some cfg /\
    GitHubWrapper.status_forcelist cfg = (admitted ++ [403%Z])%list /\
    List.NoDup admitted.
Proof.
  destruct (retry_statuses_increasing 3 (Some [500; 404]%Z) _ eq_refl)
    as (admitted & Hlist & _ & Hnodup & _).
  eexists. exists admitted. split; [reflexivity|]. split; [exact Hlist | exact Hnodup].
Defined.

(** With the default exemptions 403 is the last status of the list, and
    it is there once; a caller that exempts 500 only gets 403 twice. *)
Example retry_lists_403 :
  (exists cfg, GitHubWrapper.retry_config 1 None = Some cfg /\
               count_occ Z.eq_dec (GitHubWrapper.status_forcelist cfg) 403%Z = 1%nat /\
               length (GitHubWrapper.status_forcelist cfg) = 196%nat)
  /\ (exists cfg, GitHubWrapper.retry_config 1 (Some [500%Z]) = Some cfg /\
                  count_occ Z.eq_dec (GitHubWrapper.status_forcelist cfg) 403%Z = 2%nat /\
                  length (GitHubWrapper.status_forcelist cfg) = 200%nat).
Proof. split; eexists; (split; [reflexivity|]); split; vm_compute; reflexivity. Qed.

(** X14. Of a caller's exempt list (not empty) only the codes of
    [400,600) that occur in it count: two lists with the same such codes
    give the same retry configuration, whatever their order, repetitions
    and codes outside the range. *)
Theorem retry_exempt_as_set (retries : Z) (code1 code2 : Z) (more1 more2 : list Z)
    (Hsame : forall x, (400 <= x < 600)%Z ->
                       (In x (code1 :: more1) <-> In x (code2 :: more2))) :
  GitHubWrapper.retry_config retries (Some (code1 :: more1))
  = GitHubWrapper.retry_config retries (Some (code2 :: more2)).
Proof.
  unfold GitHubWrapper.retry_config. destruct (retries >? 0)%Z; [|reflexivity].
  cbn [GitHubWrapper.exempt_or_default]. do 2 f_equal.
  apply filter_ext_in. intros x Hx. apply in_py_range in Hx.
  specialize (Hsame x Hx).
  destruct (negb (existsb (Z.eqb x) (code1 :: more1))) eqn:H1,
           (negb (existsb (Z.eqb x) (code2 :: more2))) eqn:H2; try reflexivity.
  - apply exempt_test in H1. apply not_true_iff_false in H2.
    exfalso. apply H2. apply exempt_test. tauto.
  - apply exempt_test in H2. apply not_true_iff_false in H1.
    exfalso. apply H1. apply exempt_test. tauto.
Qed.

Lemma retry_exempt_as_set_witness :
  GitHubWrapper.retry_config 2 (Some [500; 404; 500]%Z)
  = GitHubWrapper.retry_config 2 (Some [404; 500; 200]%Z).
Proof.
  apply (retry_exempt_as_set 2 500 404 [404; 500]%Z [500; 200]%Z).
  intros x Hx. simpl. lia.
Defined.

(** ** The calls to the outside *)

Lemma traced_request (R : GitHubWrapper.Remote) (c : GitHubWrapper.api_call)
    (w w1 : GitHubWrapper.world R) (log : list GitHubWrapper.api_call)
    (o : outcome pyval) :
  GitHubWrapper.perform R c w = (o, w1) ->
  GitHubWrapper.request (traced R) c (w, log) = (o, (w1, (log ++ [c])%list)).
Proof.
  intros Hcall. unfold GitHubWrapper.request, traced.
  cbn [GitHubWrapper.perform fst snd]. now rewrite Hcall.
Qed.

Lemma two_step_bind (R : GitHubWrapper.Remote) (first : GitHubWrapper.api_call)
    (second : pyval -> GitHubWrapper.api_call) :
  two_step R
    (GitHubWrapper.api_bind (GitHubWrapper.request (traced R) first)
       (fun x => GitHubWrapper.request (traced R) (second x)))
    first second.
Proof.
  intros w log. split.
  - intros e w1 Hfirst. unfold GitHubWrapper.api_bind.
    now rewrite (traced_request _ _ _ _ log _ Hfirst).
  - intros x w1 o w2 Hfirst Hsecond. unfold GitHubWrapper.api_bind.
    rewrite (traced_request _ _ _ _ log _ Hfirst).
    rewrite (traced_request _ _ _ _ _ _ Hsecond). now rewrite <- app_assoc.
Qed.

Lemma three_step_bind (R : GitHubWrapper.Remote) (first : GitHubWrapper.api_call)
    (second : pyval -> GitHubWrapper.api_call)
    (third : pyval -> pyval -> GitHubWrapper.api_call) :
  three_step R
    (GitHubWrapper.api_bind (GitHubWrapper.request (traced R) first)
       (fun x =>
     GitHubWrapper.api_bind (GitHubWrapper.request (traced R) (second x))
       (fun y => GitHubWrapper.request (traced R) (third x y))))
    first second third.
Proof.
  intros w log. split; [|split].
  - intros e w1 Hfirst. unfold GitHubWrapper.api_bind.
    now rewrite (traced_request _ _ _ _ log _ Hfirst).
  - intros x w1 e w2 Hfirst Hsecond. unfold GitHubWrapper.api_bind.
    rewrite (traced_request _ _ _ _ log _ Hfirst).
    rewrite (traced_request _ _ _ _ _ _ Hsecond). now rewrite <- app_assoc.
  - intros x w1 y w2 o w3 Hfirst Hsecond Hthird. unfold GitHubWrapper.api_bind.
    rewrite (traced_request _ _ _ _ log _ Hfirst).
    rewrite (traced_request _ _ _ _ _ _ Hsecond).
    rewrite (traced_request _ _ _ _ _ _ Hthird). now rewrite <- !app_assoc.
Qed.

(** X15. [graphql] posts to the wrapper's base URL followed by /graphql,
    with the token as a bearer Authorization header (also when the token
    is empty) and a body that holds the query and, only when they are
    truthy, the variables: an absent or empty set of variables is left
    out.  It then checks the status and reads the JSON of the response,
    in this order; when the post or the status check raises, it raises
    the same and goes no further. *)
Theorem graphql_steps (R : GitHubWrapper.Remote) (self : GitHubWrapper.t)
    (query : string) (variables : pyval) :
  three_step R (GitHubWrapper.graphql (traced R) self query variables)
    (GitHubWrapper.HttpPost (GitHubWrapper._base_url self +:+ "/graphql")
       [("Authorization", "Bearer " +:+ GitHubWrapper._token self);
        ("Content-Type", "application/json")]
       (PyDict (("query", PyStr query)
                :: (if truthy variables then [("variables", variables)] else []))))
    (fun response => GitHubWrapper.Method response "raise_for_status" [] [])
    (fun response checked => GitHubWrapper.Method response "json" [] []).
Proof.
  unfold GitHubWrapper.graphql. cbv zeta.
  assert (Hbody : (if truthy variables
                   then dict_set [("query", PyStr query)] "variables" variables
                   else [("query", PyStr query)])
                  = ("query", PyStr query)
                    :: (if truthy variables then [("variables", variables)] else [])).
  { now destruct (truthy variables). }
  rewrite Hbody. apply three_step_bind.
Qed.

(** X16. The two operations that write run three calls in order:
    [create_comment] and [add_labels] look up the repository owner/repo
    with the client they hold, then the issue by its number, and only
    then post the comment (the body as it is) or add the labels (as
    positional arguments).  When a lookup raises, they raise the same and
    nothing is written. *)
Theorem issue_writes_after_lookups (R : GitHubWrapper.Remote) (self : IssuesAPI.t)
    (owner repo : string) (issue_number : Z) (body : string) (labels : list pyval) :
  three_step R
    (IssuesAPI.create_comment (traced R) self owner repo issue_number body)
    (GitHubWrapper.GetRepo (IssuesAPI._github self) (owner +:+ "/" +:+ repo))
    (fun repository => GitHubWrapper.Method repository "get_issue" [PyInt issue_number] [])
    (fun repository issue => GitHubWrapper.Method issue "create_comment" [PyStr body] [])
  /\ three_step R
    (IssuesAPI.add_labels (traced R) self owner repo issue_number labels)
    (GitHubWrapper.GetRepo (IssuesAPI._github self) (owner +:+ "/" +:+ repo))
    (fun repository => GitHubWrapper.Method repository "get_issue" [PyInt issue_number] [])
    (fun repository issue => GitHubWrapper.Method issue "add_to_labels" labels []).
Proof. split; apply three_step_bind. Qed.

(** X17. The operations that read run two calls: they look up the
    repository owner/repo with the client they hold and make one call on
    it, with the arguments as they were given (keyword arguments
    included).  The outcome is that call's, and when the lookup raises
    they raise the same and make no second call. *)
Theorem reads_after_lookup (R : GitHubWrapper.Remote) (issues : IssuesAPI.t)
    (repos : ReposAPI.t) (pulls : PullsAPI.t) (owner repo ref : string)
    (number : Z) (kwargs : list (string * pyval)) :
  two_step R (IssuesAPI.get (traced R) issues owner repo number)
    (GitHubWrapper.GetRepo (IssuesAPI._github issues) (owner +:+ "/" +:+ repo))
    (fun repository => GitHubWrapper.Method repository "get_issue" [PyInt number] [])
  /\ two_step R (IssuesAPI.list_for_repo (traced R) issues owner repo kwargs)
    (GitHubWrapper.GetRepo (IssuesAPI._github issues) (owner +:+ "/" +:+ repo))
    (fun repository => GitHubWrapper.Method repository "get_issues" [] kwargs)
  /\ two_step R (ReposAPI.get_commit (traced R) repos owner repo ref)
    (GitHubWrapper.GetRepo (ReposAPI._github repos) (owner +:+ "/" +:+ repo))
    (fun repository => GitHubWrapper.Method repository "get_commit" [PyStr ref] [])
  /\ two_step R (PullsAPI.list (traced R) pulls owner repo kwargs)
    (GitHubWrapper.GetRepo (PullsAPI._github pulls) (owner +:+ "/" +:+ repo))
    (fun repository => GitHubWrapper.Method repository "get_pulls" [] kwargs)
  /\ two_step R (PullsAPI.get (traced R) pulls owner repo number)
    (GitHubWrapper.GetRepo (PullsAPI._github pulls) (owner +:+ "/" +:+ repo))
    (fun repository => GitHubWrapper.Method repository "get_pull" [PyInt number] []).
Proof. repeat split; apply two_step_bind. Qed.
